(** * The query orchestrator of the textbook RAG service

    A shallow embedding of [backend/services/rag_service.py]: the class
    [RAGService] with its two operations [query_rag] (full-corpus mode) and
    [query_selected_text] (selected-text mode).

    - A Python [str] is a [string]; one [ascii] stands for one character of
      the [str], so [len] is [String.length].
    - A Python [float] (similarity score, clock reading) is a binary64
      [float]; [time.time() - start_time] is [PrimFloat.sub].
    - A Python [dict] with [str] keys (a hit's payload, a response) is a
      [gmap string _].
    - The collaborators ([gemini_service], [qdrant_store], [settings], the
      clock and the iteration order of a [set]) are the fields of a [World];
      a collaborator call either returns or raises an [Exception], of which
      the handlers only use [str(e)].
    - The operations run in a small state-and-exception monad whose state
      records every collaborator call and the number of clock readings.
    - The [print] calls only write to the console and are left out. *)

From Stdlib Require Import ZArith String Ascii List DecimalString.
From Stdlib Require Import PrimFloat FloatOps SpecFloat.
From Stdlib Require DecimalNat.
From stdpp Require Import gmap strings list fin_maps.

Set Warnings "-inexact-float".
Local Open Scope Z_scope.

(** ** Python runtime pieces used by the service *)

Module Py.

(** The newline and the double quote, as one-character strings. *)
Definition nl : string := String (ascii_of_nat 10) EmptyString.
Definition dq : string := String (ascii_of_nat 34) EmptyString.

(** [str(n)] for a non-negative [int], as in [f"chunk_{i}"]. *)
Definition str_of_nat (n : nat) : string :=
  NilZero.string_of_uint (Nat.to_uint n).

(** [len(s)] for a [str]. *)
Definition len (s : string) : Z := Z.of_nat (String.length s).

(** [sep.join(parts)]. *)
Fixpoint join (sep : string) (parts : list string) : string :=
  match parts with
  | [] => EmptyString
  | [p] => p
  | p :: rest => p +:+ sep +:+ join sep rest
  end.

(** *** [format(x, ".3f")]

    The exact value of a finite binary64 number is [m * 2^e]; it is
    scaled to thousandths and rounded to the nearest integer, ties to
    even, which is what the correctly rounded conversion of CPython
    does. *)

Definition round_half_even (n d : Z) : Z :=
  let q := n / d in
  let r := n mod d in
  match 2 * r ?= d with
  | Lt => q
  | Gt => q + 1
  | Eq => if Z.even q then q else q + 1
  end.

Definition thousandths (m : positive) (e : Z) : Z :=
  if 0 <=? e then Z.pos m * 2 ^ e * 1000
  else round_half_even (Z.pos m * 1000) (2 ^ (- e)).

Definition str_of_Z_nonneg (z : Z) : string :=
  NilZero.string_of_uint (N.to_uint (Z.to_N z)).

Definition pad3 (z : Z) : string :=
  let s := str_of_Z_nonneg z in
  if z <? 10 then "00" +:+ s else if z <? 100 then "0" +:+ s else s.

Definition fixed3 (t : Z) : string :=
  str_of_Z_nonneg (t / 1000) +:+ "." +:+ pad3 (t mod 1000).

Definition sign_str (s : bool) : string := if s then "-" else EmptyString.

Definition format_3f (x : float) : string :=
  match Prim2SF x with
  | S754_nan => "nan"
  | S754_infinity s => sign_str s +:+ "inf"
  | S754_zero s => sign_str s +:+ "0.000"
  | S754_finite s m e => sign_str s +:+ fixed3 (thousandths m e)
  end.

(** *** [list(set(l))]

    The elements of [l], each once, in the iteration order of the set.
    That order depends on the hashes of the strings, which change from
    one process to the next, so it is a parameter of the run; it is only
    known to keep every element and to repeat none. *)
Record SetOrder : Type := {
  list_set : list string -> list string;
  list_set_NoDup : forall l, NoDup (list_set l);
  list_set_elem : forall l x, x ∈ list_set l <-> x ∈ l
}.

(** One possible order: that of the list, each element at its last
    occurrence. *)
Definition last_seen_order : SetOrder :=
  {| list_set := remove_dups;
     list_set_NoDup := NoDup_remove_dups;
     list_set_elem := elem_of_remove_dups |}.

(** Another one: the order in which a [gset] lists its elements. *)
Definition gset_order : SetOrder :=
  {| list_set := fun l => elements (list_to_set l : gset string);
     list_set_NoDup := fun l => NoDup_elements (list_to_set l : gset string);
     list_set_elem := fun l x =>
       iff_trans (elem_of_elements (list_to_set l : gset string) x)
                 (elem_of_list_to_set x l) |}.

End Py.

(** ** Values, responses, hits *)

(** What a response dictionary holds under a key. *)
Inductive value : Type :=
| VStr (s : string)
| VStrList (l : list string)
| VInt (n : Z)
| VFloat (x : float)
| VFloatList (l : list float).

Abbreviation response := (gmap string value).

(** A search hit of the vector index: [hit.payload] and [hit.score]. *)
Record Hit : Type := {
  payload : gmap string string;
  score : float
}.

(** ** Collaborators *)

(** [str(e)] of the exception a collaborator raised. *)
Definition exn : Type := string.

Definition embedding : Type := list float.

Record World : Type := {
  (** [gemini_service.get_embedding(text)] *)
  get_embedding : string -> exn + embedding;
  (** [qdrant_store.search_vectors(vector, limit=..., score_threshold=...)] *)
  search_vectors : embedding -> Z -> float -> exn + list Hit;
  (** [gemini_service.generate_content(prompt)] *)
  generate_content : string -> exn + string;
  (** [settings.GEMINI_MODEL] *)
  GEMINI_MODEL : string;
  (** the [k]-th reading of [time.time()] during the call, from 0 *)
  clock : nat -> float;
  (** the iteration order of sets in this process *)
  set_order : Py.SetOrder
}.

(** A call that left the orchestrator. *)
Inductive event : Type :=
| EEmbed (text : string)
| ESearch (vector : embedding) (limit : Z) (score_threshold : float)
| EGenerate (prompt : string).

Definition is_generate (ev : event) : bool :=
  match ev with EGenerate _ => true | _ => false end.
Definition is_embed (ev : event) : bool :=
  match ev with EEmbed _ => true | _ => false end.
Definition is_search (ev : event) : bool :=
  match ev with ESearch _ _ _ => true | _ => false end.

(** ** The monad: collaborator calls, clock readings, exceptions *)

Module Run.

Record state : Type := {
  calls : list event;   (* oldest first *)
  reads : nat           (* clock readings so far *)
}.

Definition init : state := {| calls := []; reads := 0 |}.

Definition M (A : Type) : Type := state -> (exn + A) * state.

Definition ret {A} (a : A) : M A := fun s => (inr a, s).

Definition bind {A B} (c : M A) (k : A -> M B) : M B :=
  fun s =>
    match c s with
    | (inl e, s') => (inl e, s')
    | (inr a, s') => k a s'
    end.

(** [try: body  except Exception as e: handler(str(e))] *)
Definition try_except {A} (body : M A) (handler : exn -> M A) : M A :=
  fun s =>
    match body s with
    | (inl e, s') => handler e s'
    | (inr a, s') => (inr a, s')
    end.

(** A collaborator call: logged, then its outcome. *)
Definition call {A} (ev : event) (outcome : exn + A) : M A :=
  fun s => (outcome, {| calls := calls s ++ [ev]; reads := reads s |}).

(** [time.time()] *)
Definition time_time (w : World) : M float :=
  fun s => (inr (clock w (reads s)),
            {| calls := calls s; reads := S (reads s) |}).

End Run.

Notation "x <- c ;; k" := (Run.bind c (fun x => k))
  (at level 100, c at next level, right associativity).

(** ** The service *)

Record RAGService : Type := {
  similarity_threshold : float;
  max_results : Z
}.

(** [RAGService()] when neither environment variable is set. *)
Definition default_service : RAGService :=
  {| similarity_threshold := 0.7%float; max_results := 5 |}.

Definition not_found_answer : string :=
  "I couldn't find relevant information in the textbook.".

Definition context_separator : string :=
  Py.nl +:+ Py.nl +:+ "---" +:+ Py.nl +:+ Py.nl.

(** [f"[Source: {filename}, Score: {hit.score:.3f}]\n{chunk_content}"] *)
Definition context_block (filename : string) (sc : float) (chunk_content : string)
  : string :=
  "[Source: " +:+ filename +:+ ", Score: " +:+ Py.format_3f sc +:+ "]"
    +:+ Py.nl +:+ chunk_content.

(** [hit.payload.get("filename", f"chunk_{i}")] *)
Definition filename_of (i : nat) (hit : Hit) : string :=
  default ("chunk_" +:+ Py.str_of_nat i) (payload hit !! "filename").

(** The loop [for i, hit in enumerate(search_results)], started at index
    [i] with the two lists built so far. *)
Fixpoint build_context (i : nat) (search_results : list Hit)
    (context_chunks source_attribution : list string)
  : list string * list string :=
  match search_results with
  | [] => (context_chunks, source_attribution)
  | hit :: rest =>
      match payload hit !! "content" with
      | Some chunk_content =>
          let filename := filename_of i hit in
          build_context (S i) rest
            (context_chunks ++ [context_block filename (score hit) chunk_content])
            (source_attribution ++ [filename])
      | None => build_context (S i) rest context_chunks source_attribution
      end
  end.

Definition rag_prompt (context query_text : string) : string :=
  "You are a knowledgeable teaching assistant for the " +:+ Py.dq
    +:+ "Physical AI & Humanoid Robotics" +:+ Py.dq +:+ " textbook." +:+ Py.nl
  +:+ Py.nl
  +:+ "RELEVANT TEXTBOOK EXCERPTS:" +:+ Py.nl
  +:+ context +:+ Py.nl
  +:+ Py.nl
  +:+ "STUDENT QUESTION: " +:+ query_text +:+ Py.nl
  +:+ Py.nl
  +:+ "INSTRUCTIONS (CRITICAL):" +:+ Py.nl
  +:+ "1. Answer STRICTLY based on the textbook excerpts above" +:+ Py.nl
  +:+ "2. If information is NOT in the excerpts, say: " +:+ Py.dq
    +:+ "This topic is not covered in the available textbook chapters."
    +:+ Py.dq +:+ Py.nl
  +:+ "3. Keep answers concise and technical" +:+ Py.nl
  +:+ "4. Reference specific chapters/sources when possible" +:+ Py.nl
  +:+ "5. Use markdown formatting for readability" +:+ Py.nl
  +:+ Py.nl
  +:+ "ASSISTANT'S ANSWER:".

Definition selected_text_prompt (selected_text query_text : string) : string :=
  "You are a helpful assistant. Answer based STRICTLY on the following selected text:"
    +:+ Py.nl
  +:+ Py.nl
  +:+ "SELECTED TEXT:" +:+ Py.nl
  +:+ selected_text +:+ Py.nl
  +:+ Py.nl
  +:+ "QUESTION: " +:+ query_text +:+ Py.nl
  +:+ Py.nl
  +:+ "RULES:" +:+ Py.nl
  +:+ "1. Answer ONLY from the selected text above" +:+ Py.nl
  +:+ "2. If answer is NOT in selected text, say: " +:+ Py.dq
    +:+ "The selected text does not contain this information." +:+ Py.dq
    +:+ Py.nl
  +:+ "3. Do not use any external knowledge" +:+ Py.nl
  +:+ "4. Be concise and accurate" +:+ Py.nl
  +:+ Py.nl
  +:+ "ANSWER:".

(** The three dictionaries [query_rag] can return. *)

Definition not_found_response (query_text : string) (response_time : float)
  : response :=
  <["answer" := VStr not_found_answer]>
  (<["sources" := VStrList []]>
  (<["chunks_used" := VInt 0]>
  (<["query" := VStr query_text]>
  (<["response_time" := VFloat response_time]> ∅)))).

Definition rag_response (w : World) (answer : string)
    (context_chunks source_attribution : list string)
    (search_results : list Hit) (query_text : string) (total_time : float)
  : response :=
  <["answer" := VStr answer]>
  (<["sources" := VStrList (Py.list_set (set_order w) source_attribution)]>
  (<["chunks_used" := VInt (Z.of_nat (length context_chunks))]>
  (<["similarity_scores" := VFloatList (map score search_results)]>
  (<["query" := VStr query_text]>
  (<["response_time" := VFloat total_time]>
  (<["model" := VStr (GEMINI_MODEL w)]> ∅)))))).

Definition rag_error_response (e : exn) (query_text : string) : response :=
  <["answer" := VStr ("Error processing your query: " +:+ e)]>
  (<["sources" := VStrList []]>
  (<["error" := VStr e]>
  (<["query" := VStr query_text]> ∅))).

(** [RAGService.query_rag] *)
Definition query_rag (w : World) (self : RAGService) (query_text : string)
  : Run.M response :=
  start_time <- Run.time_time w ;;
  Run.try_except
    (query_embedding <-
       Run.call (EEmbed query_text) (get_embedding w query_text) ;;
     embedding_time <- Run.time_time w ;;
     search_results <-
       Run.call
         (ESearch query_embedding (max_results self) (similarity_threshold self))
         (search_vectors w query_embedding (max_results self)
            (similarity_threshold self)) ;;
     search_time <- Run.time_time w ;;
     match search_results with
     | [] =>
         now <- Run.time_time w ;;
         Run.ret (not_found_response query_text (PrimFloat.sub now start_time))
     | _ :: _ =>
         let '(context_chunks, source_attribution) :=
           build_context 0 search_results [] [] in
         let context := Py.join context_separator context_chunks in
         let prompt := rag_prompt context query_text in
         answer <- Run.call (EGenerate prompt) (generate_content w prompt) ;;
         generation_time <- Run.time_time w ;;
         now <- Run.time_time w ;;
         let total_time := PrimFloat.sub now start_time in
         Run.ret (rag_response w answer context_chunks source_attribution
                    search_results query_text total_time)
     end)
    (fun e => Run.ret (rag_error_response e query_text)).

(** The two dictionaries [query_selected_text] can return. *)

Definition selected_text_response (w : World) (answer query_text : string)
    (selected_text : string) (response_time : float) : response :=
  <["answer" := VStr answer]>
  (<["source" := VStr "User-selected text"]>
  (<["query" := VStr query_text]>
  (<["selected_text_length" := VInt (Py.len selected_text)]>
  (<["response_time" := VFloat response_time]>
  (<["model" := VStr (GEMINI_MODEL w)]> ∅))))).

Definition selected_text_error_response (e : exn) (query_text : string)
  : response :=
  <["answer" := VStr ("Error: " +:+ e)]>
  (<["source" := VStr "Error"]>
  (<["query" := VStr query_text]> ∅)).

(** [RAGService.query_selected_text] *)
Definition query_selected_text (w : World) (self : RAGService)
    (query_text selected_text : string) : Run.M response :=
  start_time <- Run.time_time w ;;
  Run.try_except
    (let prompt := selected_text_prompt selected_text query_text in
     answer <- Run.call (EGenerate prompt) (generate_content w prompt) ;;
     now <- Run.time_time w ;;
     Run.ret (selected_text_response w answer query_text selected_text
                (PrimFloat.sub now start_time)))
    (fun e => Run.ret (selected_text_error_response e query_text)).

(** ** Running an operation *)

(** A request to the orchestrator: one of its two operations with its
    arguments. *)
Inductive operation : Type :=
| FullCorpus (query_text : string)
| SelectedText (query_text selected_text : string).

Definition query_of (op : operation) : string :=
  match op with
  | FullCorpus query_text => query_text
  | SelectedText query_text _ => query_text
  end.

(** One invocation, from a state with no call made and no clock reading. *)
Definition run_operation (w : World) (self : RAGService) (op : operation)
  : (exn + response) * Run.state :=
  match op with
  | FullCorpus query_text => query_rag w self query_text Run.init
  | SelectedText query_text selected_text =>
      query_selected_text w self query_text selected_text Run.init
  end.

(** The context string [query_rag] assembles from a list of hits. *)
Definition context_of (search_results : list Hit) : string :=
  Py.join context_separator (build_context 0 search_results [] []).1.

(** An upstream provider call made by the operation raises with message
    [e]: the embedding call, or the search after it, or the generation
    call that follows a non-empty search; in selected-text mode, the
    generation call. *)
Inductive upstream_failure (w : World) (self : RAGService)
  : operation -> exn -> Prop :=
| embedding_fails q e :
    get_embedding w q = inl e ->
    upstream_failure w self (FullCorpus q) e
| search_fails q v e :
    get_embedding w q = inr v ->
    search_vectors w v (max_results self) (similarity_threshold self) = inl e ->
    upstream_failure w self (FullCorpus q) e
| generation_fails q v hits e :
    get_embedding w q = inr v ->
    search_vectors w v (max_results self) (similarity_threshold self)
      = inr hits ->
    hits <> [] ->
    generate_content w (rag_prompt (context_of hits) q) = inl e ->
    upstream_failure w self (FullCorpus q) e
| selection_generation_fails q t e :
    generate_content w (selected_text_prompt t q) = inl e ->
    upstream_failure w self (SelectedText q t) e.

(** ** The context, as the specification words it

    One labelled block per hit, in hit order, for the hits whose payload
    has a [content] entry; the file name is the payload's, or
    [chunk_<index>] with the hit's position in the search result. *)

Definition labelled_block (i : nat) (hit : Hit) : option string :=
  match payload hit !! "content" with
  | Some content =>
      let filename :=
        match payload hit !! "filename" with
        | Some f => f
        | None => "chunk_" +:+ Py.str_of_nat i
        end in
      Some ("[Source: " +:+ filename +:+ ", Score: "
              +:+ Py.format_3f (score hit) +:+ "]" +:+ Py.nl +:+ content)
  | None => None
  end.

Definition attributed_source (i : nat) (hit : Hit) : option string :=
  match payload hit !! "content" with
  | Some _ => Some (filename_of i hit)
  | None => None
  end.

Definition labelled_blocks (hits : list Hit) : list string :=
  omap id (imap labelled_block hits).

Definition attributed_sources (hits : list Hit) : list string :=
  omap id (imap attributed_source hits).

(** [ "content" in hit.payload ] *)
Definition has_content (hit : Hit) : Prop :=
  is_Some (payload hit !! "content").

(** The keys of the response entity [AnswerResponse]. *)
Definition answer_response_fields : gset string :=
  {[ "answer"; "sources"; "chunks_used"; "similarity_scores"; "query";
     "response_time"; "model" ]}.

(** ** Concrete worlds *)

Definition demo_clock (k : nat) : float :=
  nth k [100%float; 100.25%float; 100.5%float; 101%float; 103%float] 0%float.

Definition demo_world (found : exn + list Hit) (generated : exn + string)
  : World :=
  {| get_embedding := fun _ => inr [0.25%float; 0.5%float];
     search_vectors := fun _ _ _ => found;
     generate_content := fun _ => generated;
     GEMINI_MODEL := "gemini-2.0-flash";
     clock := demo_clock;
     set_order := Py.gset_order |}.

Definition hit_ch1 : Hit :=
  {| payload := <["content" := "A humanoid robot mimics human form."]>
                (<["filename" := "ch1.pdf"]> ∅);
     score := 0.85%float |}.

Definition hit_unnamed : Hit :=
  {| payload := <["content" := "Actuators drive the joints."]> ∅;
     score := 0.8%float |}.

Definition hit_no_content : Hit :=
  {| payload := <["filename" := "toc.md"]> ∅;
     score := 0.75%float |}.

Definition mixed_hits : list Hit :=
  [hit_ch1; hit_no_content; hit_unnamed; hit_ch1].

(** The search finds nothing. *)
Definition world_empty : World :=
  demo_world (inr []) (inr "never asked").

(** The search finds one chunk of chapter 1. *)
Definition world_book : World :=
  demo_world (inr [hit_ch1]) (inr "A robot built in the shape of a human.").

(** The search finds four hits: one twice, one without a file name, one
    without content. *)
Definition world_mixed : World :=
  demo_world (inr mixed_hits) (inr "A robot built in the shape of a human.").

(** The only hit has no content. *)
Definition world_no_content : World :=
  demo_world (inr [hit_no_content]) (inr "This topic is not covered.").

(** The Generation Provider is out of quota. *)
Definition world_generation_down : World :=
  demo_world (inr [hit_ch1]) (inl "quota exceeded").

(** Generation answers a question about the sky. *)
Definition world_sky : World :=
  demo_world (inr []) (inr "Blue.").

(** The keys of the two shorter responses of [query_rag]. *)
Definition not_found_fields : gset string :=
  {[ "answer"; "sources"; "chunks_used"; "query"; "response_time" ]}.

Definition error_fields : gset string :=
  {[ "answer"; "sources"; "error"; "query" ]}.

(** ** Construction of the service

    [RAGService.__init__] reads two environment variables. [os.getenv]
    gives the string the variable is set to, or else the default, which is
    already a number; [float] and [int] then either convert or raise.
    The two conversions of a string are builtins of the language and are
    taken as parameters. *)
Definition RAGService_init (py_float : string -> exn + float)
    (py_int : string -> exn + Z) (environ : gmap string string)
  : exn + RAGService :=
  match
    match environ !! "SIMILARITY_THRESHOLD" with
    | Some s => py_float s
    | None => inr 0.7%float
    end
  with
  | inl e => inl e
  | inr threshold =>
      match
        match environ !! "MAX_RESULTS" with
        | Some s => py_int s
        | None => inr 5
        end
      with
      | inl e => inl e
      | inr limit =>
          inr {| similarity_threshold := threshold; max_results := limit |}
      end
  end.

(** ** The request gateway, [backend/api/main.py] *)

Module Api.

(** What a module-level name is bound to after the guarded imports: the
    imported singleton, or an instance of [MockService]. *)
Inductive binding (A : Type) : Type :=
| Real (a : A)
| Mock.

Arguments Real {A} a.
Arguments Mock {A}.

Definition is_mock {A} (b : binding A) : bool :=
  match b with Mock => true | Real _ => false end.

(** How an [import] statement ends: the name is imported, or the import
    raises [ImportError], or it raises something else. *)
Inductive import_outcome (A : Type) : Type :=
| Imported (a : A)
| RaisesImportError (msg : exn)
| RaisesOther (msg : exn).

Arguments Imported {A} a.
Arguments RaisesImportError {A} msg.
Arguments RaisesOther {A} msg.

(** The guarded imports at the top of the module: the second import runs
    only after the first succeeded; [except ImportError] rebinds both
    names to mocks; any other exception leaves the module unloaded. *)
Definition load_services {I R} (ingestion : import_outcome I)
    (rag : import_outcome R) : exn + (binding I * binding R) :=
  match ingestion with
  | Imported i =>
      match rag with
      | Imported r => inr (Real i, Real r)
      | RaisesImportError _ => inr (Mock, Mock)
      | RaisesOther e => inl e
      end
  | RaisesImportError _ => inr (Mock, Mock)
  | RaisesOther e => inl e
  end.

(** [MockService.query_rag] and [MockService.query_selected_text] *)
Definition mock_answer : response := <["answer" := VStr "Mock answer"]> ∅.

(** [MockService.ingest_book_content] *)
Definition mock_ingest_book_content : exn + gmap string value :=
  inr (<["message" := VStr "Mock service"]> ∅).

(** [rag_service.query_rag(query)] on whatever [rag_service] is bound to *)
Definition service_query_rag (w : World) (rag_service : binding RAGService)
    (query : string) : Run.M response :=
  match rag_service with
  | Real self => query_rag w self query
  | Mock => Run.ret mock_answer
  end.

(** [rag_service.query_selected_text(query, text)] *)
Definition service_query_selected_text (w : World)
    (rag_service : binding RAGService) (query text : string)
  : Run.M response :=
  match rag_service with
  | Real self => query_selected_text w self query text
  | Mock => Run.ret mock_answer
  end.

(** The body both query endpoints fall back to on an exception. *)
Definition query_failed (e : exn) : response :=
  <["error" := VStr e]> (<["message" := VStr "Query failed"]> ∅).

(** The request models [QueryRequest] and [SelectedTextQueryRequest]. *)
Record QueryRequest : Type := { query : string }.

Record SelectedTextQueryRequest : Type := {
  st_query : string;       (* the field [query] *)
  selected_text : string
}.

(** [POST /query] *)
Definition query_rag_system (w : World) (rag_service : binding RAGService)
    (request : QueryRequest) : Run.M response :=
  Run.try_except
    (response <- service_query_rag w rag_service (query request) ;;
     Run.ret response)
    (fun e => Run.ret (query_failed e)).

(** [POST /query_selected_text] *)
Definition query_with_selected_text (w : World)
    (rag_service : binding RAGService) (request : SelectedTextQueryRequest)
  : Run.M response :=
  Run.try_except
    (response <- service_query_selected_text w rag_service
                   (st_query request) (selected_text request) ;;
     Run.ret response)
    (fun e => Run.ret (query_failed e)).

(** What the body of [POST /ingest] holds under a key: a string, or the
    result of the ingestion, which the endpoint passes on untouched. *)
Inductive ingest_value (R : Type) : Type :=
| IStr (s : string)
| IData (result : R).

Arguments IStr {R} s.
Arguments IData {R} result.

(** [POST /ingest], given how [ingestion_service.ingest_book_content()]
    ends. *)
Definition ingest_content {R} (ingest_book_content : exn + R)
  : exn + gmap string (ingest_value R) :=
  match
    match ingest_book_content with
    | inl e => inl e
    | inr result =>
        inr (<["message" := IStr "Ingestion completed successfully"]>
             (<["data" := IData result]> ∅))
    end
  with
  | inl e =>
      inr (<["error" := IStr e]> (<["message" := IStr "Ingestion failed"]> ∅))
  | inr body => inr body
  end.

End Api.

(** * Properties *)

(** ** The five ways a run of [query_rag] can go *)

Section RagRuns.

Variables (w : World) (self : RAGService) (q : string).

Let limit := max_results self.
Let threshold := similarity_threshold self.

Ltac run_rag :=
  unfold query_rag, Run.bind, Run.try_except, Run.call, Run.time_time,
    Run.ret, Run.init; simpl.

Lemma query_rag_embedding_fails e :
  get_embedding w q = inl e ->
  query_rag w self q Run.init
  = (inr (rag_error_response e q),
     {| Run.calls := [EEmbed q]; Run.reads := 1 |}).
Proof. intros He. run_rag. rewrite He. reflexivity. Qed.

Lemma query_rag_search_fails v e :
  get_embedding w q = inr v ->
  search_vectors w v limit threshold = inl e ->
  query_rag w self q Run.init
  = (inr (rag_error_response e q),
     {| Run.calls := [EEmbed q; ESearch v limit threshold];
        Run.reads := 2 |}).
Proof.
  intros Hv He. run_rag. rewrite Hv. simpl.
  fold limit threshold. rewrite He. reflexivity.
Qed.

Lemma query_rag_not_found v :
  get_embedding w q = inr v ->
  search_vectors w v limit threshold = inr [] ->
  query_rag w self q Run.init
  = (inr (not_found_response q (PrimFloat.sub (clock w 3) (clock w 0))),
     {| Run.calls := [EEmbed q; ESearch v limit threshold];
        Run.reads := 4 |}).
Proof.
  intros Hv Hs. run_rag. rewrite Hv. simpl.
  fold limit threshold. rewrite Hs. reflexivity.
Qed.

Lemma query_rag_generation_fails v hits e :
  get_embedding w q = inr v ->
  search_vectors w v limit threshold = inr hits ->
  hits <> [] ->
  generate_content w (rag_prompt (context_of hits) q) = inl e ->
  query_rag w self q Run.init
  = (inr (rag_error_response e q),
     {| Run.calls := [EEmbed q; ESearch v limit threshold;
                      EGenerate (rag_prompt (context_of hits) q)];
        Run.reads := 3 |}).
Proof.
  intros Hv Hs Hne He. run_rag. rewrite Hv. simpl.
  fold limit threshold. rewrite Hs.
  destruct hits as [|hit rest]; [congruence|].
  unfold context_of in *.
  destruct (build_context 0 (hit :: rest) [] []) as [chunks srcs].
  cbn [fst snd] in *. cbv beta iota. rewrite He. reflexivity.
Qed.

Lemma query_rag_answered v hits answer :
  get_embedding w q = inr v ->
  search_vectors w v limit threshold = inr hits ->
  hits <> [] ->
  generate_content w (rag_prompt (context_of hits) q) = inr answer ->
  query_rag w self q Run.init
  = (inr (rag_response w answer (build_context 0 hits [] []).1
            (build_context 0 hits [] []).2 hits q
            (PrimFloat.sub (clock w 4) (clock w 0))),
     {| Run.calls := [EEmbed q; ESearch v limit threshold;
                      EGenerate (rag_prompt (context_of hits) q)];
        Run.reads := 5 |}).
Proof.
  intros Hv Hs Hne Ha. run_rag. rewrite Hv. simpl.
  fold limit threshold. rewrite Hs.
  destruct hits as [|hit rest]; [congruence|].
  unfold context_of in *.
  destruct (build_context 0 (hit :: rest) [] []) as [chunks srcs].
  cbn [fst snd] in *. cbv beta iota. rewrite Ha. reflexivity.
Qed.

(** Every run of [query_rag] is one of the five. *)
Lemma query_rag_cases :
  (exists e, get_embedding w q = inl e)
  \/ (exists v e, get_embedding w q = inr v
        /\ search_vectors w v limit threshold = inl e)
  \/ (exists v, get_embedding w q = inr v
        /\ search_vectors w v limit threshold = inr [])
  \/ (exists v hits e, get_embedding w q = inr v
        /\ search_vectors w v limit threshold = inr hits /\ hits <> []
        /\ generate_content w (rag_prompt (context_of hits) q) = inl e)
  \/ (exists v hits answer, get_embedding w q = inr v
        /\ search_vectors w v limit threshold = inr hits /\ hits <> []
        /\ generate_content w (rag_prompt (context_of hits) q) = inr answer).
Proof.
  destruct (get_embedding w q) as [e|v] eqn:Hv; [left; eauto|].
  destruct (search_vectors w v limit threshold) as [e|hits] eqn:Hs;
    [right; left; eauto|].
  destruct hits as [|hit rest]; [right; right; left; eauto|].
  destruct (generate_content w (rag_prompt (context_of (hit :: rest)) q))
    as [e|answer] eqn:Hg.
  - do 3 right. left. exists v, (hit :: rest), e. repeat split; congruence.
  - do 4 right. exists v, (hit :: rest), answer. repeat split; congruence.
Qed.

End RagRuns.

(** ** The loop that builds the context *)

Section BuildContext.

Implicit Types (hits : list Hit) (hit : Hit) (i : nat).

Lemma context_block_labelled i hit content :
  payload hit !! "content" = Some content ->
  labelled_block i hit
  = Some (context_block (filename_of i hit) (score hit) content).
Proof.
  intros Hc. unfold labelled_block, context_block, filename_of.
  rewrite Hc. destruct (payload hit !! "filename"); reflexivity.
Qed.

(** The loop invariant: both lists grow by what the hits from index [i]
    on contribute. *)
Lemma build_context_from i hits (chunks srcs : list string) :
  build_context i hits chunks srcs
  = (chunks ++ omap id (imap (fun j => labelled_block (i + j)) hits),
     srcs ++ omap id (imap (fun j => attributed_source (i + j)) hits)).
Proof.
  revert i chunks srcs.
  induction hits as [|hit rest IH]; intros i chunks srcs.
  - simpl. rewrite !app_nil_r. reflexivity.
  - cbn [build_context imap omap]. unfold compose.
    rewrite (imap_ext (fun j => labelled_block (i + S j))
               (fun j => labelled_block (S i + j)) rest)
      by (intros; f_equal; lia).
    rewrite (imap_ext (fun j => attributed_source (i + S j))
               (fun j => attributed_source (S i + j)) rest)
      by (intros; f_equal; lia).
    rewrite Nat.add_0_r.
    destruct (payload hit !! "content") as [content|] eqn:Hc.
    + rewrite IH, (context_block_labelled _ _ _ Hc).
      unfold attributed_source at 2. rewrite Hc. cbn [id].
      rewrite <- !app_assoc. reflexivity.
    + rewrite IH. unfold labelled_block at 2, attributed_source at 2.
      rewrite Hc. reflexivity.
Qed.

Lemma build_context_chunks hits :
  (build_context 0 hits [] []).1 = labelled_blocks hits.
Proof. rewrite build_context_from. reflexivity. Qed.

Lemma build_context_sources hits :
  (build_context 0 hits [] []).2 = attributed_sources hits.
Proof. rewrite build_context_from. reflexivity. Qed.

(** What an indexed partial map keeps. *)
Lemma elem_of_omap_imap {A B} (f : nat -> A -> option B) (l : list A) (b : B) :
  b ∈ omap id (imap f l) <-> exists i a, l !! i = Some a /\ f i a = Some b.
Proof.
  rewrite list_elem_of_omap. split.
  - intros (o & Ho & Hb). apply elem_of_lookup_imap in Ho as (i & a & -> & Ha).
    exists i, a. split; assumption.
  - intros (i & a & Ha & Hb). exists (Some b). split; [|reflexivity].
    apply elem_of_lookup_imap. exists i, a. split; [symmetry|]; assumption.
Qed.

(** It keeps one entry per element it is defined on. *)
Lemma length_omap_imap {A B} (P : A -> Prop) `{forall a, Decision (P a)}
    (f : nat -> A -> option B) (l : list A) :
  (forall i a, is_Some (f i a) <-> P a) ->
  length (omap id (imap f l)) = length (filter P l).
Proof.
  revert f. induction l as [|a l IH]; intros f Hf; [reflexivity|].
  change (omap id (imap f (a :: l)))
    with (match f O a with
          | Some b => b :: omap id (imap (f ∘ S) l)
          | None => omap id (imap (f ∘ S) l)
          end).
  rewrite filter_cons.
  specialize (IH (f ∘ S) (fun i a => Hf (S i) a)).
  destruct (f O a) as [b|] eqn:Hb.
  - rewrite decide_True by (apply (Hf O); eauto).
    cbn [length]. f_equal. exact IH.
  - rewrite decide_False; [exact IH|].
    intros HP. apply (Hf O) in HP. rewrite Hb in HP. destruct HP; discriminate.
Qed.

Lemma labelled_block_is_Some i hit :
  is_Some (labelled_block i hit) <-> has_content hit.
Proof.
  unfold labelled_block, has_content.
  destruct (payload hit !! "content"); split; intros [x Hx]; eauto; discriminate.
Qed.

Lemma attributed_source_is_Some i hit :
  is_Some (attributed_source i hit) <-> has_content hit.
Proof.
  unfold attributed_source, has_content.
  destruct (payload hit !! "content"); split; intros [x Hx]; eauto; discriminate.
Qed.

Lemma length_labelled_blocks hits :
  length (labelled_blocks hits) = length (filter has_content hits).
Proof. apply length_omap_imap, labelled_block_is_Some. Qed.

Lemma length_attributed_sources hits :
  length (attributed_sources hits) = length (filter has_content hits).
Proof. apply length_omap_imap, attributed_source_is_Some. Qed.

Lemma filter_all {A} (P : A -> Prop) `{forall a, Decision (P a)} (l : list A) :
  Forall P l -> filter P l = l.
Proof.
  induction 1 as [|a l Ha _ IH]; [reflexivity|].
  rewrite filter_cons, decide_True by assumption. f_equal. exact IH.
Qed.

End BuildContext.

(** ** The two ways a run of [query_selected_text] can go *)

Section SelectedTextRuns.

Variables (w : World) (self : RAGService) (q t : string).

Ltac run_selected :=
  unfold query_selected_text, Run.bind, Run.try_except, Run.call,
    Run.time_time, Run.ret, Run.init; simpl.

Lemma query_selected_text_answered answer :
  generate_content w (selected_text_prompt t q) = inr answer ->
  query_selected_text w self q t Run.init
  = (inr (selected_text_response w answer q t
            (PrimFloat.sub (clock w 1) (clock w 0))),
     {| Run.calls := [EGenerate (selected_text_prompt t q)];
        Run.reads := 2 |}).
Proof. intros Ha. run_selected. rewrite Ha. reflexivity. Qed.

Lemma query_selected_text_fails e :
  generate_content w (selected_text_prompt t q) = inl e ->
  query_selected_text w self q t Run.init
  = (inr (selected_text_error_response e q),
     {| Run.calls := [EGenerate (selected_text_prompt t q)];
        Run.reads := 1 |}).
Proof. intros He. run_selected. rewrite He. reflexivity. Qed.

Lemma query_selected_text_calls :
  Run.calls (query_selected_text w self q t Run.init).2
  = [EGenerate (selected_text_prompt t q)].
Proof.
  destruct (generate_content w (selected_text_prompt t q)) as [e|a] eqn:Hg.
  - rewrite (query_selected_text_fails _ Hg). reflexivity.
  - rewrite (query_selected_text_answered _ Hg). reflexivity.
Qed.

End SelectedTextRuns.

(** ** The claims *)

(** C1. When the vector search returns no hit, [query_rag] returns the
    response with [chunks_used == 0], [sources == []], the fixed not-found
    sentence as answer and the elapsed time measured between the first and
    the fourth clock reading; the Generation Provider is not called. *)
Theorem C1_zero_hits_short_circuit (w : World) (self : RAGService)
    (q : string) (v : embedding) :
  get_embedding w q = inr v ->
  search_vectors w v (max_results self) (similarity_threshold self) = inr [] ->
  exists r st,
    query_rag w self q Run.init = (inr r, st)
    /\ r !! "chunks_used" = Some (VInt 0)
    /\ r !! "sources" = Some (VStrList [])
    /\ r !! "answer"
       = Some (VStr "I couldn't find relevant information in the textbook.")
    /\ r !! "response_time"
       = Some (VFloat (PrimFloat.sub (clock w 3) (clock w 0)))
    /\ forall prompt, EGenerate prompt ∉ Run.calls st.
Proof.
  intros Hv Hs. eexists _, _. split; [apply (query_rag_not_found _ _ _ _ Hv Hs)|].
  repeat split; try reflexivity.
  intros prompt Hin. cbn [Run.calls] in Hin.
  repeat (apply elem_of_cons in Hin as [Hin|Hin]; [discriminate|]).
  by apply elem_of_nil in Hin.
Qed.

(** C1 at a world whose search finds nothing. *)
Lemma C1_zero_hits_witness :
  get_embedding world_empty "What is a humanoid robot?"
  = inr [0.25%float; 0.5%float]
  /\ search_vectors world_empty [0.25%float; 0.5%float] 5 0.7%float = inr []
  /\ exists r st,
       query_rag world_empty default_service "What is a humanoid robot?"
         Run.init = (inr r, st)
       /\ r !! "chunks_used" = Some (VInt 0)
       /\ r !! "sources" = Some (VStrList [])
       /\ r !! "answer"
          = Some (VStr "I couldn't find relevant information in the textbook.")
       /\ r !! "response_time" = Some (VFloat 1%float)
       /\ forall prompt, EGenerate prompt ∉ Run.calls st.
Proof.
  split; [reflexivity|]. split; [reflexivity|].
  apply (C1_zero_hits_short_circuit world_empty default_service
           "What is a humanoid robot?" [0.25%float; 0.5%float]);
    reflexivity.
Defined.

(** C8. [query_selected_text] calls neither the Embedding Provider nor the
    Vector Index: the one collaborator call it makes is the generation
    call with the selected-text prompt. *)
Theorem C8_selected_text_only_generates (w : World) (self : RAGService)
    (q t : string) :
  let st := (query_selected_text w self q t Run.init).2 in
  Run.calls st = [EGenerate (selected_text_prompt t q)]
  /\ length (filter (fun ev => is_generate ev = true) (Run.calls st)) = 1%nat
  /\ forall ev, ev ∈ Run.calls st -> is_embed ev = false /\ is_search ev = false.
Proof.
  cbv zeta. rewrite query_selected_text_calls.
  split; [reflexivity|]. split; [reflexivity|].
  intros ev Hin. apply list_elem_of_singleton in Hin as ->. split; reflexivity.
Qed.

(** C9. A selected-text query whose generation call succeeds returns the
    generated answer, the source tag "User-selected text", the query, the
    number of characters of the selected text, the elapsed time between
    the two clock readings and the model identifier. *)
Theorem C9_selected_text_response (w : World) (self : RAGService)
    (q t answer : string) :
  generate_content w (selected_text_prompt t q) = inr answer ->
  exists r st,
    query_selected_text w self q t Run.init = (inr r, st)
    /\ r !! "answer" = Some (VStr answer)
    /\ r !! "source" = Some (VStr "User-selected text")
    /\ r !! "query" = Some (VStr q)
    /\ r !! "selected_text_length" = Some (VInt (Z.of_nat (String.length t)))
    /\ r !! "response_time"
       = Some (VFloat (PrimFloat.sub (clock w 1) (clock w 0)))
    /\ r !! "model" = Some (VStr (GEMINI_MODEL w)).
Proof.
  intros Ha. eexists _, _.
  split; [apply (query_selected_text_answered _ _ _ _ _ Ha)|].
  repeat split; reflexivity.
Qed.

(** C9 on the scenario of the specification: 16 characters. *)
Lemma C9_sky_witness :
  generate_content world_sky
    (selected_text_prompt "The sky is blue." "What color is the sky?")
  = inr "Blue."
  /\ exists r st,
       query_selected_text world_sky default_service "What color is the sky?"
         "The sky is blue." Run.init = (inr r, st)
       /\ r !! "answer" = Some (VStr "Blue.")
       /\ r !! "source" = Some (VStr "User-selected text")
       /\ r !! "query" = Some (VStr "What color is the sky?")
       /\ r !! "selected_text_length" = Some (VInt 16)
       /\ r !! "response_time" = Some (VFloat 0.25%float)
       /\ r !! "model" = Some (VStr "gemini-2.0-flash").
Proof.
  split; [reflexivity|].
  apply (C9_selected_text_response world_sky default_service
           "What color is the sky?" "The sky is blue." "Blue.").
  reflexivity.
Defined.

(** C10. Whatever the collaborators do, each of the two operations returns
    a response, and that response holds the input query under "query" and
    a string under "answer". *)
Theorem C10_query_and_answer_always_present (w : World) (self : RAGService)
    (op : operation) :
  exists r st,
    run_operation w self op = (inr r, st)
    /\ r !! "query" = Some (VStr (query_of op))
    /\ exists a, r !! "answer" = Some (VStr a).
Proof.
  destruct op as [q|q t]; cbn [run_operation query_of].
  - destruct (query_rag_cases w self q)
      as [(e & He)|[(v & e & Hv & He)|[(v & Hv & Hs)
         |[(v & hits & e & Hv & Hs & Hne & He)
          |(v & hits & a & Hv & Hs & Hne & Ha)]]]].
    + rewrite (query_rag_embedding_fails _ _ _ _ He).
      eexists _, _. split; [reflexivity|]. split; [reflexivity|].
      eexists. reflexivity.
    + rewrite (query_rag_search_fails _ _ _ _ _ Hv He).
      eexists _, _. split; [reflexivity|]. split; [reflexivity|].
      eexists. reflexivity.
    + rewrite (query_rag_not_found _ _ _ _ Hv Hs).
      eexists _, _. split; [reflexivity|]. split; [reflexivity|].
      eexists. reflexivity.
    + rewrite (query_rag_generation_fails _ _ _ _ _ _ Hv Hs Hne He).
      eexists _, _. split; [reflexivity|]. split; [reflexivity|].
      eexists. reflexivity.
    + rewrite (query_rag_answered _ _ _ _ _ _ Hv Hs Hne Ha).
      eexists _, _. split; [reflexivity|]. split; [reflexivity|].
      eexists. reflexivity.
  - destruct (generate_content w (selected_text_prompt t q)) as [e|a] eqn:Hg.
    + rewrite (query_selected_text_fails _ self _ _ _ Hg).
      eexists _, _. split; [reflexivity|]. split; [reflexivity|].
      eexists. reflexivity.
    + rewrite (query_selected_text_answered _ self _ _ _ Hg).
      eexists _, _. split; [reflexivity|]. split; [reflexivity|].
      eexists. reflexivity.
Qed.

(** C2, as the claim states it, fails in selected-text mode: when the
    Generation Provider raises "quota exceeded", the response of
    [query_selected_text] has no "error" entry at all. *)
Lemma C2_selected_text_failure_has_no_error_field :
  upstream_failure world_generation_down default_service
    (SelectedText "What color is the sky?" "The sky is blue.")
    "quota exceeded"
  /\ ~ (exists r st,
          run_operation world_generation_down default_service
            (SelectedText "What color is the sky?" "The sky is blue.")
          = (inr r, st)
          /\ r !! "error" = Some (VStr "quota exceeded")
          /\ r !! "answer" = Some (VStr "Error: quota exceeded")).
Proof.
  split; [constructor; reflexivity|].
  intros (r & st & Hrun & Herr & _).
  cbn [run_operation] in Hrun.
  rewrite (query_selected_text_fails world_generation_down default_service
             _ _ "quota exceeded" eq_refl) in Hrun.
  injection Hrun as <- _. discriminate Herr.
Qed.

(** C2, amended. When an upstream provider call raises with message [e],
    the operation still returns a response. In full-corpus mode its
    "error" entry is [e] and its "answer" is "Error processing your query: "
    followed by [e]. In selected-text mode it has no "error" entry: its
    "source" is "Error" and its "answer" is exactly "Error: " followed by
    [e]. *)
Theorem C2_upstream_failure_response (w : World) (self : RAGService)
    (op : operation) (e : exn) :
  upstream_failure w self op e ->
  exists r st,
    run_operation w self op = (inr r, st)
    /\ match op with
       | FullCorpus _ =>
           r !! "error" = Some (VStr e)
           /\ r !! "answer" = Some (VStr ("Error processing your query: " +:+ e))
       | SelectedText _ _ =>
           r !! "error" = None
           /\ r !! "source" = Some (VStr "Error")
           /\ r !! "answer" = Some (VStr ("Error: " +:+ e))
       end.
Proof.
  intros [q e' He|q v e' Hv He|q v hits e' Hv Hs Hne He|q t e' He];
    cbn [run_operation]; eexists _, _.
  - split; [apply (query_rag_embedding_fails _ _ _ _ He)|].
    split; reflexivity.
  - split; [apply (query_rag_search_fails _ _ _ _ _ Hv He)|].
    split; reflexivity.
  - split; [apply (query_rag_generation_fails _ _ _ _ _ _ Hv Hs Hne He)|].
    split; reflexivity.
  - split; [apply (query_selected_text_fails _ _ _ _ _ He)|].
    repeat split; reflexivity.
Qed.

(** C2, amended, at a full-corpus query whose generation call raises. *)
Lemma C2_generation_down_witness :
  upstream_failure world_generation_down default_service
    (FullCorpus "What is a humanoid robot?") "quota exceeded"
  /\ exists r st,
       run_operation world_generation_down default_service
         (FullCorpus "What is a humanoid robot?") = (inr r, st)
       /\ r !! "error" = Some (VStr "quota exceeded")
       /\ r !! "answer"
          = Some (VStr "Error processing your query: quota exceeded").
Proof.
  assert (Hfail : upstream_failure world_generation_down default_service
                    (FullCorpus "What is a humanoid robot?") "quota exceeded").
  { apply (generation_fails _ _ _ [0.25%float; 0.5%float] [hit_ch1]);
      [reflexivity|reflexivity|discriminate|reflexivity]. }
  split; [exact Hfail|].
  exact (C2_upstream_failure_response world_generation_down default_service
           (FullCorpus "What is a humanoid robot?") "quota exceeded" Hfail).
Defined.

(** C5, as the claim states it, fails on the zero-hit response: it has no
    "model" entry (and no "similarity_scores" entry), so it does not carry
    all the fields of [AnswerResponse]. *)
Lemma C5_zero_hit_response_lacks_model :
  ~ (forall r st,
       query_rag world_empty default_service "What is a humanoid robot?"
         Run.init = (inr r, st) ->
       answer_response_fields ⊆ dom r).
Proof.
  intros Hall.
  specialize (Hall _ _ (query_rag_not_found world_empty default_service
                          "What is a humanoid robot?"
                          [0.25%float; 0.5%float] eq_refl eq_refl)).
  assert (Hin : "model" ∈ answer_response_fields)
    by (apply (bool_decide_unpack _); vm_compute; exact I).
  apply Hall, elem_of_dom in Hin. destruct Hin as [x Hx]. discriminate Hx.
Qed.

(** C5, amended. [query_rag] always returns a response, and it always
    carries "answer", "sources" and "query". The response to an answered
    query has exactly the seven fields of [AnswerResponse]; the zero-hit
    response has exactly "answer", "sources", "chunks_used", "query" and
    "response_time"; the provider-failure response has exactly "answer",
    "sources", "error" and "query". *)
Theorem C5_fields_of_each_response (w : World) (self : RAGService)
    (q : string) :
  exists r st,
    query_rag w self q Run.init = (inr r, st)
    /\ ({[ "answer"; "sources"; "query" ]} : gset string) ⊆ dom r
    /\ (forall v hits answer,
          get_embedding w q = inr v ->
          search_vectors w v (max_results self) (similarity_threshold self)
            = inr hits ->
          hits <> [] ->
          generate_content w (rag_prompt (context_of hits) q) = inr answer ->
          dom r = answer_response_fields)
    /\ (forall v,
          get_embedding w q = inr v ->
          search_vectors w v (max_results self) (similarity_threshold self)
            = inr [] ->
          dom r = not_found_fields)
    /\ (forall e,
          upstream_failure w self (FullCorpus q) e ->
          dom r = error_fields).
Proof.
  assert (Hsub_err : forall e,
    ({[ "answer"; "sources"; "query" ]} : gset string)
      ⊆ dom (rag_error_response e q)).
  { intros e. replace (dom (rag_error_response e q)) with error_fields
      by reflexivity. apply (bool_decide_unpack _). vm_compute. exact I. }
  destruct (query_rag_cases w self q)
    as [(e & He)|[(v & e & Hv & He)|[(v & Hv & Hs)
       |[(v & hits & e & Hv & Hs & Hne & He)
        |(v & hits & a & Hv & Hs & Hne & Ha)]]]].
  - eexists _, _. split; [apply (query_rag_embedding_fails _ _ _ _ He)|].
    split; [apply Hsub_err|]. split; [|split].
    + intros v hits a Hv. congruence.
    + intros v Hv. congruence.
    + reflexivity.
  - eexists _, _. split; [apply (query_rag_search_fails _ _ _ _ _ Hv He)|].
    split; [apply Hsub_err|]. split; [|split].
    + intros v' hits a Hv' Hs. congruence.
    + intros v' Hv' Hs. congruence.
    + reflexivity.
  - eexists _, _. split; [apply (query_rag_not_found _ _ _ _ Hv Hs)|].
    split; [|split; [|split]].
    + replace (dom (not_found_response q _)) with not_found_fields
        by reflexivity.
      apply (bool_decide_unpack _). vm_compute. exact I.
    + intros v' hits a Hv' Hs' Hne. congruence.
    + reflexivity.
    + intros e Hfail. inversion Hfail; congruence.
  - eexists _, _.
    split; [apply (query_rag_generation_fails _ _ _ _ _ _ Hv Hs Hne He)|].
    split; [apply Hsub_err|]. split; [|split].
    + intros v' hits' a Hv' Hs' _ Ha. congruence.
    + intros v' Hv' Hs'. congruence.
    + reflexivity.
  - eexists _, _.
    split; [apply (query_rag_answered _ _ _ _ _ _ Hv Hs Hne Ha)|].
    split; [|split; [|split]].
    + replace (dom (rag_response _ _ _ _ _ _ _)) with answer_response_fields
        by reflexivity.
      apply (bool_decide_unpack _). vm_compute. exact I.
    + reflexivity.
    + intros v' Hv' Hs'. congruence.
    + intros e Hfail. inversion Hfail; congruence.
Qed.

(** ** Context assembly *)

(** [".3f"] rounds the exact binary value, ties to even, and keeps the
    sign of a negative number that rounds to zero. *)
Example format_3f_examples :
  Py.format_3f 0.85%float = "0.850"
  /\ Py.format_3f 0.0625%float = "0.062"
  /\ Py.format_3f 0.1875%float = "0.188"
  /\ Py.format_3f 0.9996%float = "1.000"
  /\ Py.format_3f (-0.0001)%float = "-0.000".
Proof. repeat split; reflexivity. Qed.

(** The scenario of the specification: one hit of chapter 1. *)
Example context_of_book :
  context_of [hit_ch1]
  = "[Source: ch1.pdf, Score: 0.850]" +:+ Py.nl
      +:+ "A humanoid robot mimics human form.".
Proof. reflexivity. Qed.

(** A hit without content is skipped, and the index in [chunk_<index>] is
    the hit's position among all hits, skipped ones included. *)
Example context_of_mixed_hits :
  (build_context 0 mixed_hits [] []).1
  = [ "[Source: ch1.pdf, Score: 0.850]" +:+ Py.nl
        +:+ "A humanoid robot mimics human form.";
      "[Source: chunk_2, Score: 0.800]" +:+ Py.nl
        +:+ "Actuators drive the joints.";
      "[Source: ch1.pdf, Score: 0.850]" +:+ Py.nl
        +:+ "A humanoid robot mimics human form." ].
Proof. reflexivity. Qed.

(** C3. For a non-empty search result, the blocks [query_rag] builds are
    the labelled blocks of the hits: each one is "[Source: <filename>,
    Score: <score to 3 decimals>]", a newline, and the content of a hit,
    where the file name is the payload's or, when the payload has none,
    "chunk_<index>" with the position of that hit; the context sent to the
    Generation Provider is these blocks joined by a blank line, "---" and
    a blank line. *)
Theorem C3_context_blocks_format (w : World) (self : RAGService)
    (q : string) (v : embedding) (hits : list Hit) :
  get_embedding w q = inr v ->
  search_vectors w v (max_results self) (similarity_threshold self)
    = inr hits ->
  hits <> [] ->
  let chunks := (build_context 0 hits [] []).1 in
  chunks = labelled_blocks hits
  /\ (forall b, b ∈ chunks ->
        exists i hit content filename,
          hits !! i = Some hit
          /\ payload hit !! "content" = Some content
          /\ (payload hit !! "filename" = Some filename
              \/ payload hit !! "filename" = None
                 /\ filename = "chunk_" +:+ Py.str_of_nat i)
          /\ b = "[Source: " +:+ filename +:+ ", Score: "
                   +:+ Py.format_3f (score hit) +:+ "]" +:+ Py.nl +:+ content)
  /\ EGenerate
       (rag_prompt
          (Py.join (Py.nl +:+ Py.nl +:+ "---" +:+ Py.nl +:+ Py.nl) chunks) q)
     ∈ Run.calls (query_rag w self q Run.init).2.
Proof.
  intros Hv Hs Hne chunks. split; [apply build_context_chunks|]. split.
  - intros b Hb. unfold chunks in Hb. rewrite build_context_chunks in Hb.
    apply elem_of_omap_imap in Hb as (i & hit & Hi & Hb).
    unfold labelled_block in Hb.
    destruct (payload hit !! "content") as [content|] eqn:Hc; [|discriminate].
    injection Hb as <-.
    destruct (payload hit !! "filename") as [f|] eqn:Hf.
    + exists i, hit, content, f. repeat split; auto.
    + exists i, hit, content, ("chunk_" +:+ Py.str_of_nat i).
      repeat split; auto.
  - change (Py.join (Py.nl +:+ Py.nl +:+ "---" +:+ Py.nl +:+ Py.nl) chunks)
      with (context_of hits).
    destruct (generate_content w (rag_prompt (context_of hits) q))
      as [e|a] eqn:Hg.
    + rewrite (query_rag_generation_fails _ _ _ _ _ _ Hv Hs Hne Hg).
      cbn [snd Run.calls]. set_solver.
    + rewrite (query_rag_answered _ _ _ _ _ _ Hv Hs Hne Hg).
      cbn [snd Run.calls]. set_solver.
Qed.

(** C3 at a search result of four hits. *)
Lemma C3_mixed_hits_witness :
  get_embedding world_mixed "What is a humanoid robot?"
  = inr [0.25%float; 0.5%float]
  /\ search_vectors world_mixed [0.25%float; 0.5%float] 5 0.7%float
     = inr mixed_hits
  /\ mixed_hits <> []
  /\ (build_context 0 mixed_hits [] []).1 = labelled_blocks mixed_hits
  /\ EGenerate
       (rag_prompt
          (Py.join (Py.nl +:+ Py.nl +:+ "---" +:+ Py.nl +:+ Py.nl)
             (build_context 0 mixed_hits [] []).1)
          "What is a humanoid robot?")
     ∈ Run.calls
         (query_rag world_mixed default_service "What is a humanoid robot?"
            Run.init).2.
Proof.
  assert (Hne : mixed_hits <> []) by discriminate.
  split; [reflexivity|]. split; [reflexivity|]. split; [exact Hne|].
  destruct (C3_context_blocks_format world_mixed default_service
              "What is a humanoid robot?" [0.25%float; 0.5%float] mixed_hits
              eq_refl eq_refl Hne) as (Hblocks & _ & Hcall).
  split; [exact Hblocks|exact Hcall].
Defined.

(** C4, as the claim states it, fails when a hit has no content: the
    search returns one hit, no block is built for it and [chunks_used] is
    0, not 1. *)
Lemma C4_hit_without_content_not_counted :
  search_vectors world_no_content [0.25%float; 0.5%float] 5 0.7%float
  = inr [hit_no_content]
  /\ exists r st,
       query_rag world_no_content default_service "What is a humanoid robot?"
         Run.init = (inr r, st)
       /\ r !! "chunks_used" = Some (VInt 0)
       /\ r !! "chunks_used"
          <> Some (VInt (Z.of_nat (length [hit_no_content]))).
Proof.
  split; [reflexivity|]. eexists _, _.
  split; [apply (query_rag_answered world_no_content default_service
                   "What is a humanoid robot?" [0.25%float; 0.5%float]
                   [hit_no_content] "This topic is not covered.");
          [reflexivity|reflexivity|discriminate|reflexivity]|].
  split; [reflexivity|]. discriminate.
Qed.

(** C4, amended. For a non-empty search result, [query_rag] builds one
    labelled block per hit whose payload has a content entry, in the order
    of the hits, and skips the other hits; [chunks_used] is the number of
    hits with content, at most the number of hits, and equal to it when
    every hit has content. *)
Theorem C4_one_block_per_hit_with_content (w : World) (self : RAGService)
    (q : string) (v : embedding) (hits : list Hit) (answer : string) :
  get_embedding w q = inr v ->
  search_vectors w v (max_results self) (similarity_threshold self)
    = inr hits ->
  hits <> [] ->
  generate_content w (rag_prompt (context_of hits) q) = inr answer ->
  exists r st,
    query_rag w self q Run.init = (inr r, st)
    /\ (build_context 0 hits [] []).1 = omap id (imap labelled_block hits)
    /\ r !! "chunks_used"
       = Some (VInt (Z.of_nat (length (filter has_content hits))))
    /\ (length (filter has_content hits) <= length hits)%nat
    /\ (Forall has_content hits ->
        r !! "chunks_used" = Some (VInt (Z.of_nat (length hits)))).
Proof.
  intros Hv Hs Hne Ha. eexists _, _.
  split; [apply (query_rag_answered _ _ _ _ _ _ Hv Hs Hne Ha)|].
  assert (Hused : rag_response w answer (build_context 0 hits [] []).1
                    (build_context 0 hits [] []).2 hits q
                    (PrimFloat.sub (clock w 4) (clock w 0)) !! "chunks_used"
                  = Some (VInt (Z.of_nat (length (filter has_content hits))))).
  { rewrite <- length_labelled_blocks, <- build_context_chunks. reflexivity. }
  split; [apply build_context_chunks|]. split; [exact Hused|].
  split; [apply length_filter|].
  intros Hall. rewrite Hused, (filter_all _ _ Hall). reflexivity.
Qed.

(** C4, amended, at four hits of which three have content. *)
Lemma C4_mixed_hits_witness :
  get_embedding world_mixed "What is a humanoid robot?"
  = inr [0.25%float; 0.5%float]
  /\ search_vectors world_mixed [0.25%float; 0.5%float] 5 0.7%float
     = inr mixed_hits
  /\ mixed_hits <> []
  /\ generate_content world_mixed
       (rag_prompt (context_of mixed_hits) "What is a humanoid robot?")
     = inr "A robot built in the shape of a human."
  /\ exists r st,
       query_rag world_mixed default_service "What is a humanoid robot?"
         Run.init = (inr r, st)
       /\ r !! "chunks_used" = Some (VInt 3).
Proof.
  assert (Hne : mixed_hits <> []) by discriminate.
  split; [reflexivity|]. split; [reflexivity|]. split; [exact Hne|].
  split; [reflexivity|].
  destruct (C4_one_block_per_hit_with_content world_mixed default_service
              "What is a humanoid robot?" [0.25%float; 0.5%float] mixed_hits
              "A robot built in the shape of a human."
              eq_refl eq_refl Hne eq_refl)
    as (r & st & Hrun & _ & Hused & _).
  exists r, st. split; [exact Hrun|exact Hused].
Defined.

(** ** Response shaping *)

Lemma attributed_source_Some (i : nat) (hit : Hit) (f : string) :
  attributed_source i hit = Some f <-> has_content hit /\ filename_of i hit = f.
Proof.
  unfold attributed_source, has_content.
  destruct (payload hit !! "content") as [c|]; split.
  - intros [= <-]. split; [eauto|reflexivity].
  - intros [_ <-]. reflexivity.
  - discriminate.
  - intros [[c Hc] _]. discriminate.
Qed.

(** The order of "sources" is that of the run's sets, not that of the
    hits: two set orders list the same attribution differently. *)
Example sources_order_not_fixed :
  Py.list_set Py.last_seen_order ["ch1.pdf"; "chunk_2"]
  = ["ch1.pdf"; "chunk_2"]
  /\ Py.list_set Py.gset_order ["ch1.pdf"; "chunk_2"]
     = ["chunk_2"; "ch1.pdf"].
Proof. split; reflexivity. Qed.

(** The scenario of the specification: the question about humanoid
    robots with the one hit of chapter 1. *)
Example book_scenario :
  exists r st,
    query_rag world_book default_service "What is a humanoid robot?" Run.init
    = (inr r, st)
    /\ r !! "sources" = Some (VStrList ["ch1.pdf"])
    /\ r !! "chunks_used" = Some (VInt 1)
    /\ r !! "similarity_scores" = Some (VFloatList [0.85%float])
    /\ Run.calls st
       = [ EEmbed "What is a humanoid robot?";
           ESearch [0.25%float; 0.5%float] 5 0.7%float;
           EGenerate
             (rag_prompt
                ("[Source: ch1.pdf, Score: 0.850]" +:+ Py.nl
                   +:+ "A humanoid robot mimics human form.")
                "What is a humanoid robot?") ].
Proof.
  eexists _, _.
  split; [apply (query_rag_answered world_book default_service
                   "What is a humanoid robot?" [0.25%float; 0.5%float]
                   [hit_ch1] "A robot built in the shape of a human.");
          [reflexivity|reflexivity|discriminate|reflexivity]|].
  repeat split; vm_compute; reflexivity.
Qed.

(** C6. The response to an answered full-corpus query holds: the generated
    answer; under "sources" the file names attributed to the hits that
    have content, each once, in no particular order; under "chunks_used"
    the number of blocks built; under "similarity_scores" the score of
    every hit, in hit order; the query; the time elapsed between the first
    and the last clock reading; the configured model identifier. *)
Theorem C6_answered_response_shape (w : World) (self : RAGService)
    (q : string) (v : embedding) (hits : list Hit) (answer : string) :
  get_embedding w q = inr v ->
  search_vectors w v (max_results self) (similarity_threshold self)
    = inr hits ->
  hits <> [] ->
  generate_content w (rag_prompt (context_of hits) q) = inr answer ->
  exists r st srcs,
    query_rag w self q Run.init = (inr r, st)
    /\ r !! "answer" = Some (VStr answer)
    /\ r !! "sources" = Some (VStrList srcs)
    /\ NoDup srcs
    /\ (forall f, f ∈ srcs <->
          exists i hit, hits !! i = Some hit /\ has_content hit
                        /\ filename_of i hit = f)
    /\ r !! "chunks_used"
       = Some (VInt (Z.of_nat (length (build_context 0 hits [] []).1)))
    /\ r !! "similarity_scores" = Some (VFloatList (map score hits))
    /\ r !! "query" = Some (VStr q)
    /\ r !! "response_time"
       = Some (VFloat (PrimFloat.sub (clock w 4) (clock w 0)))
    /\ r !! "model" = Some (VStr (GEMINI_MODEL w)).
Proof.
  intros Hv Hs Hne Ha. eexists _, _, _.
  split; [apply (query_rag_answered _ _ _ _ _ _ Hv Hs Hne Ha)|].
  split; [reflexivity|]. split; [reflexivity|].
  split; [apply Py.list_set_NoDup|]. split.
  - intros f. rewrite Py.list_set_elem, build_context_sources.
    unfold attributed_sources. rewrite elem_of_omap_imap.
    split; intros (i & hit & Hi & Hf); exists i, hit;
      (split; [exact Hi|]); apply attributed_source_Some; exact Hf.
  - repeat split; reflexivity.
Qed.

(** C6 at four hits, two of them the same chunk. *)
Lemma C6_mixed_hits_witness :
  get_embedding world_mixed "What is a humanoid robot?"
  = inr [0.25%float; 0.5%float]
  /\ search_vectors world_mixed [0.25%float; 0.5%float] 5 0.7%float
     = inr mixed_hits
  /\ mixed_hits <> []
  /\ generate_content world_mixed
       (rag_prompt (context_of mixed_hits) "What is a humanoid robot?")
     = inr "A robot built in the shape of a human."
  /\ exists r st srcs,
       query_rag world_mixed default_service "What is a humanoid robot?"
         Run.init = (inr r, st)
       /\ r !! "sources" = Some (VStrList srcs)
       /\ NoDup srcs
       /\ r !! "chunks_used" = Some (VInt 3)
       /\ r !! "similarity_scores"
          = Some (VFloatList [0.85%float; 0.75%float; 0.8%float; 0.85%float])
       /\ r !! "response_time" = Some (VFloat 3%float)
       /\ r !! "model" = Some (VStr "gemini-2.0-flash").
Proof.
  assert (Hne : mixed_hits <> []) by discriminate.
  split; [reflexivity|]. split; [reflexivity|]. split; [exact Hne|].
  split; [reflexivity|].
  destruct (C6_answered_response_shape world_mixed default_service
              "What is a humanoid robot?" [0.25%float; 0.5%float] mixed_hits
              "A robot built in the shape of a human."
              eq_refl eq_refl Hne eq_refl)
    as (r & st & srcs & Hrun & _ & Hsrcs & Hnodup & _ & Hused & Hscores & _
        & Htime & Hmodel).
  exists r, st, srcs. repeat split; assumption.
Defined.

(** C7. For a non-empty search result that is answered, the "sources"
    list is no longer than the "similarity_scores" list, and "chunks_used"
    is the number of blocks that were joined into the context sent to the
    Generation Provider, which is the number of hits used, those with
    content. *)
Theorem C7_sources_bounded_chunks_counted (w : World) (self : RAGService)
    (q : string) (v : embedding) (hits : list Hit) (answer : string) :
  get_embedding w q = inr v ->
  search_vectors w v (max_results self) (similarity_threshold self)
    = inr hits ->
  hits <> [] ->
  generate_content w (rag_prompt (context_of hits) q) = inr answer ->
  exists r st srcs scores chunks,
    query_rag w self q Run.init = (inr r, st)
    /\ r !! "sources" = Some (VStrList srcs)
    /\ r !! "similarity_scores" = Some (VFloatList scores)
    /\ (length srcs <= length scores)%nat
    /\ EGenerate (rag_prompt (Py.join context_separator chunks) q)
       ∈ Run.calls st
    /\ r !! "chunks_used" = Some (VInt (Z.of_nat (length chunks)))
    /\ length chunks = length (filter has_content hits).
Proof.
  intros Hv Hs Hne Ha.
  exists (rag_response w answer (build_context 0 hits [] []).1
            (build_context 0 hits [] []).2 hits q
            (PrimFloat.sub (clock w 4) (clock w 0))).
  eexists _, _, _, (build_context 0 hits [] []).1.
  split; [apply (query_rag_answered _ _ _ _ _ _ Hv Hs Hne Ha)|].
  split; [reflexivity|]. split; [reflexivity|]. split; [|split; [|split]].
  - rewrite length_map.
    transitivity (length (build_context 0 hits [] []).2).
    + apply submseteq_length, NoDup_submseteq; [apply Py.list_set_NoDup|].
      intros f. apply Py.list_set_elem.
    + rewrite build_context_sources, length_attributed_sources.
      apply length_filter.
  - cbn [Run.calls]. fold (context_of hits). set_solver.
  - reflexivity.
  - rewrite build_context_chunks. apply length_labelled_blocks.
Qed.

(** C7 at four hits of which three are used. *)
Lemma C7_mixed_hits_witness :
  get_embedding world_mixed "What is a humanoid robot?"
  = inr [0.25%float; 0.5%float]
  /\ search_vectors world_mixed [0.25%float; 0.5%float] 5 0.7%float
     = inr mixed_hits
  /\ mixed_hits <> []
  /\ generate_content world_mixed
       (rag_prompt (context_of mixed_hits) "What is a humanoid robot?")
     = inr "A robot built in the shape of a human."
  /\ exists r st srcs scores (chunks : list string),
       query_rag world_mixed default_service "What is a humanoid robot?"
         Run.init = (inr r, st)
       /\ r !! "sources" = Some (VStrList srcs)
       /\ r !! "similarity_scores" = Some (VFloatList scores)
       /\ (length srcs <= length scores)%nat
       /\ r !! "chunks_used" = Some (VInt (Z.of_nat (length chunks)))
       /\ length chunks = 3%nat.
Proof.
  assert (Hne : mixed_hits <> []) by discriminate.
  split; [reflexivity|]. split; [reflexivity|]. split; [exact Hne|].
  split; [reflexivity|].
  destruct (C7_sources_bounded_chunks_counted world_mixed default_service
              "What is a humanoid robot?" [0.25%float; 0.5%float] mixed_hits
              "A robot built in the shape of a human."
              eq_refl eq_refl Hne eq_refl)
    as (r & st & srcs & scores & chunks & Hrun & Hsrcs & Hscores & Hle & _
        & Hused & Hlen).
  exists r, st, srcs, scores, chunks. repeat split; assumption.
Defined.

(** * Further properties of the orchestrator *)

(** ** The calls a full-corpus query makes *)

(** X1. A run of [query_rag] calls the providers in pipeline order and
    each at most once, with no retry: always the Embedding Provider with
    the query; then, if that returned a vector, the Vector Index with that
    vector, [max_results] and [similarity_threshold]; then, if the search
    returned hits, the Generation Provider once, with the prompt built
    from those hits. Nothing else is called. *)
Theorem X1_calls_follow_the_pipeline (w : World) (self : RAGService)
    (q : string) :
  let log := Run.calls (query_rag w self q Run.init).2 in
  let limit := max_results self in
  let threshold := similarity_threshold self in
  (exists e, get_embedding w q = inl e /\ log = [EEmbed q])
  \/ (exists v, get_embedding w q = inr v
        /\ ((exists e, search_vectors w v limit threshold = inl e)
            \/ search_vectors w v limit threshold = inr [])
        /\ log = [EEmbed q; ESearch v limit threshold])
  \/ (exists v hits, get_embedding w q = inr v
        /\ search_vectors w v limit threshold = inr hits /\ hits <> []
        /\ log = [EEmbed q; ESearch v limit threshold;
                  EGenerate (rag_prompt (context_of hits) q)]).
Proof.
  cbv zeta.
  destruct (query_rag_cases w self q)
    as [(e & He)|[(v & e & Hv & He)|[(v & Hv & Hs)
       |[(v & hits & e & Hv & Hs & Hne & He)
        |(v & hits & a & Hv & Hs & Hne & Ha)]]]].
  - left. exists e. split; [exact He|].
    rewrite (query_rag_embedding_fails _ _ _ _ He). reflexivity.
  - right; left. exists v. split; [exact Hv|]. split; [left; eauto|].
    rewrite (query_rag_search_fails _ _ _ _ _ Hv He). reflexivity.
  - right; left. exists v. split; [exact Hv|]. split; [right; exact Hs|].
    rewrite (query_rag_not_found _ _ _ _ Hv Hs). reflexivity.
  - right; right. exists v, hits. repeat (split; [assumption|]).
    rewrite (query_rag_generation_fails _ _ _ _ _ _ Hv Hs Hne He). reflexivity.
  - right; right. exists v, hits. repeat (split; [assumption|]).
    rewrite (query_rag_answered _ _ _ _ _ _ Hv Hs Hne Ha). reflexivity.
Qed.

(** X2. When a provider call of a full-corpus query raises, the response
    lists no source, also when the failure comes after the search had
    returned hits: what was retrieved is not reported, and the response
    has no "chunks_used", "similarity_scores", "response_time" or "model"
    entry. *)
Theorem X2_failure_reports_no_sources (w : World) (self : RAGService)
    (q : string) (e : exn) :
  upstream_failure w self (FullCorpus q) e ->
  exists r st,
    query_rag w self q Run.init = (inr r, st)
    /\ r !! "sources" = Some (VStrList [])
    /\ r !! "chunks_used" = None
    /\ r !! "similarity_scores" = None
    /\ r !! "response_time" = None
    /\ r !! "model" = None.
Proof.
  intros Hfail. inversion Hfail as [q' e' He|q' v e' Hv He
                                   |q' v hits e' Hv Hs Hne He|]; subst;
    eexists _, _.
  - split; [apply (query_rag_embedding_fails _ _ _ _ He)|].
    repeat split; reflexivity.
  - split; [apply (query_rag_search_fails _ _ _ _ _ Hv He)|].
    repeat split; reflexivity.
  - split; [apply (query_rag_generation_fails _ _ _ _ _ _ Hv Hs Hne He)|].
    repeat split; reflexivity.
Qed.

(** X2 when generation raises after the search found chapter 1. *)
Lemma X2_generation_down_witness :
  search_vectors world_generation_down [0.25%float; 0.5%float] 5 0.7%float
  = inr [hit_ch1]
  /\ upstream_failure world_generation_down default_service
       (FullCorpus "What is a humanoid robot?") "quota exceeded"
  /\ exists r st,
       query_rag world_generation_down default_service
         "What is a humanoid robot?" Run.init = (inr r, st)
       /\ r !! "sources" = Some (VStrList [])
       /\ r !! "chunks_used" = None.
Proof.
  assert (Hfail : upstream_failure world_generation_down default_service
                    (FullCorpus "What is a humanoid robot?") "quota exceeded").
  { apply (generation_fails _ _ _ [0.25%float; 0.5%float] [hit_ch1]);
      [reflexivity|reflexivity|discriminate|reflexivity]. }
  split; [reflexivity|]. split; [exact Hfail|].
  destruct (X2_failure_reports_no_sources world_generation_down
              default_service "What is a humanoid robot?" "quota exceeded"
              Hfail) as (r & st & Hrun & Hsrc & Hused & _).
  exists r, st. repeat split; assumption.
Defined.

(** ** Hits without content *)

Lemma no_content_no_blocks (hits : list Hit) :
  Forall (fun hit => ~ has_content hit) hits ->
  (build_context 0 hits [] []).1 = [] /\ (build_context 0 hits [] []).2 = [].
Proof.
  intros Hnone.
  assert (Hfil : filter has_content hits = []).
  { induction Hnone as [|hit rest Hhit _ IH]; [reflexivity|].
    rewrite filter_cons, decide_False by exact Hhit. exact IH. }
  split; apply nil_length_inv.
  - rewrite build_context_chunks, length_labelled_blocks, Hfil. reflexivity.
  - rewrite build_context_sources, length_attributed_sources, Hfil.
    reflexivity.
Qed.

Lemma list_set_nil (o : Py.SetOrder) : Py.list_set o [] = [].
Proof.
  apply elem_of_nil_inv. intros x Hx.
  apply Py.list_set_elem in Hx. by apply elem_of_nil in Hx.
Qed.

(** X3. When the search returns hits but none of them has content,
    [query_rag] does not take the not-found short cut: it calls the
    Generation Provider with a prompt whose excerpts part is empty, and
    the response has [chunks_used == 0] and [sources == []] next to the
    generated answer and the scores of all the hits. *)
Theorem X3_hits_without_content_still_generate (w : World)
    (self : RAGService) (q : string) (v : embedding) (hits : list Hit)
    (answer : string) :
  get_embedding w q = inr v ->
  search_vectors w v (max_results self) (similarity_threshold self)
    = inr hits ->
  hits <> [] ->
  Forall (fun hit => ~ has_content hit) hits ->
  generate_content w (rag_prompt EmptyString q) = inr answer ->
  exists r st,
    query_rag w self q Run.init = (inr r, st)
    /\ EGenerate (rag_prompt EmptyString q) ∈ Run.calls st
    /\ r !! "answer" = Some (VStr answer)
    /\ r !! "chunks_used" = Some (VInt 0)
    /\ r !! "sources" = Some (VStrList [])
    /\ r !! "similarity_scores" = Some (VFloatList (map score hits)).
Proof.
  intros Hv Hs Hne Hnone Ha.
  destruct (no_content_no_blocks hits Hnone) as [Hchunks Hsrcs].
  assert (Hctx : context_of hits = EmptyString)
    by (unfold context_of; rewrite Hchunks; reflexivity).
  rewrite <- Hctx in Ha. eexists _, _.
  split; [apply (query_rag_answered _ _ _ _ _ _ Hv Hs Hne Ha)|].
  rewrite Hchunks, Hsrcs, Hctx. split; [cbn [Run.calls]; set_solver|].
  split; [reflexivity|]. split; [reflexivity|]. split; [|reflexivity].
  unfold rag_response. rewrite list_set_nil. reflexivity.
Qed.

(** X3 at a world whose only hit is a table of contents without content. *)
Lemma X3_no_content_witness :
  get_embedding world_no_content "What is a humanoid robot?"
  = inr [0.25%float; 0.5%float]
  /\ search_vectors world_no_content [0.25%float; 0.5%float] 5 0.7%float
     = inr [hit_no_content]
  /\ Forall (fun hit => ~ has_content hit) [hit_no_content]
  /\ exists r st,
       query_rag world_no_content default_service "What is a humanoid robot?"
         Run.init = (inr r, st)
       /\ EGenerate (rag_prompt EmptyString "What is a humanoid robot?")
          ∈ Run.calls st
       /\ r !! "answer" = Some (VStr "This topic is not covered.")
       /\ r !! "chunks_used" = Some (VInt 0)
       /\ r !! "sources" = Some (VStrList [])
       /\ r !! "similarity_scores" = Some (VFloatList [0.75%float]).
Proof.
  assert (Hnone : Forall (fun hit => ~ has_content hit) [hit_no_content]).
  { repeat constructor. intros [c Hc]. discriminate Hc. }
  split; [reflexivity|]. split; [reflexivity|]. split; [exact Hnone|].
  apply (X3_hits_without_content_still_generate world_no_content
           default_service "What is a humanoid robot?"
           [0.25%float; 0.5%float] [hit_no_content]
           "This topic is not covered.");
    [reflexivity|reflexivity|discriminate|exact Hnone|reflexivity].
Defined.

(** X4. The "similarity_scores" list has one entry per returned hit, also
    for the hits skipped for lack of content, so [chunks_used] equals its
    length exactly when every returned hit has content, and is smaller
    otherwise. *)
Theorem X4_scores_count_skipped_hits (w : World) (self : RAGService)
    (q : string) (v : embedding) (hits : list Hit) (answer : string) :
  get_embedding w q = inr v ->
  search_vectors w v (max_results self) (similarity_threshold self)
    = inr hits ->
  hits <> [] ->
  generate_content w (rag_prompt (context_of hits) q) = inr answer ->
  exists r st scores used,
    query_rag w self q Run.init = (inr r, st)
    /\ r !! "similarity_scores" = Some (VFloatList scores)
    /\ r !! "chunks_used" = Some (VInt (Z.of_nat used))
    /\ length scores = length hits
    /\ (used <= length scores)%nat
    /\ (used = length scores <-> Forall has_content hits).
Proof.
  intros Hv Hs Hne Ha.
  eexists _, _, (map score hits), (length (filter has_content hits)).
  split; [apply (query_rag_answered _ _ _ _ _ _ Hv Hs Hne Ha)|].
  split; [reflexivity|]. split.
  { rewrite <- length_labelled_blocks, <- build_context_chunks. reflexivity. }
  rewrite length_map. split; [reflexivity|].
  split; [apply length_filter|]. split.
  - intros Hlen. apply Forall_forall. intros hit Hin.
    destruct (decide (has_content hit)) as [Hc|Hc]; [exact Hc|].
    pose proof (length_filter_lt has_content hits hit Hin Hc). lia.
  - intros Hall. rewrite (filter_all _ _ Hall). reflexivity.
Qed.

(** X4 at four hits of which one has no content. *)
Lemma X4_mixed_hits_witness :
  get_embedding world_mixed "What is a humanoid robot?"
  = inr [0.25%float; 0.5%float]
  /\ search_vectors world_mixed [0.25%float; 0.5%float] 5 0.7%float
     = inr mixed_hits
  /\ mixed_hits <> []
  /\ generate_content world_mixed
       (rag_prompt (context_of mixed_hits) "What is a humanoid robot?")
     = inr "A robot built in the shape of a human."
  /\ exists r st scores used,
       query_rag world_mixed default_service "What is a humanoid robot?"
         Run.init = (inr r, st)
       /\ r !! "similarity_scores" = Some (VFloatList scores)
       /\ r !! "chunks_used" = Some (VInt (Z.of_nat used))
       /\ length scores = 4%nat
       /\ (used <= length scores)%nat.
Proof.
  assert (Hne : mixed_hits <> []) by discriminate.
  split; [reflexivity|]. split; [reflexivity|]. split; [exact Hne|].
  split; [reflexivity|].
  destruct (X4_scores_count_skipped_hits world_mixed default_service
              "What is a humanoid robot?" [0.25%float; 0.5%float] mixed_hits
              "A robot built in the shape of a human."
              eq_refl eq_refl Hne eq_refl)
    as (r & st & scores & used & Hrun & Hscores & Hused & Hlen & Hle & _).
  exists r, st, scores, used. repeat split; assumption.
Defined.

(** ** Blocks and their attributions *)

Lemma build_context_aligned (P : string -> string -> Prop) (i : nat)
    (hits : list Hit) (chunks srcs : list string) :
  (forall f sc content, P (context_block f sc content) f) ->
  Forall2 P chunks srcs ->
  Forall2 P (build_context i hits chunks srcs).1
            (build_context i hits chunks srcs).2.
Proof.
  intros HP. revert i chunks srcs.
  induction hits as [|hit rest IH]; intros i chunks srcs Hacc; [exact Hacc|].
  cbn [build_context].
  destruct (payload hit !! "content") as [content|]; [|apply IH, Hacc].
  apply IH, Forall2_app; [exact Hacc|].
  constructor; [apply HP|constructor].
Qed.

(** X5. The two lists the loop builds stay aligned: they have the same
    length, and the k-th attributed source is the file name in the label
    of the k-th context block. *)
Theorem X5_sources_aligned_with_blocks (hits : list Hit) :
  let chunks := (build_context 0 hits [] []).1 in
  let srcs := (build_context 0 hits [] []).2 in
  length chunks = length srcs
  /\ Forall2
       (fun block filename =>
          exists sc content,
            block = "[Source: " +:+ filename +:+ ", Score: "
                      +:+ Py.format_3f sc +:+ "]" +:+ Py.nl +:+ content)
       chunks srcs.
Proof.
  cbv zeta.
  assert (Hal : Forall2
            (fun block filename =>
               exists sc content,
                 block = "[Source: " +:+ filename +:+ ", Score: "
                           +:+ Py.format_3f sc +:+ "]" +:+ Py.nl +:+ content)
            (build_context 0 hits [] []).1 (build_context 0 hits [] []).2).
  { apply build_context_aligned; [|constructor].
    intros f sc content. exists sc, content. reflexivity. }
  split; [exact (Forall2_length _ _ _ Hal)|exact Hal].
Qed.

Lemma NoDup_all_same (l : list string) (f : string) :
  NoDup l -> (forall x, x ∈ l -> x = f) -> l <> [] -> l = [f].
Proof.
  intros Hnd Hall Hne. destruct l as [|a [|b l]]; [congruence| |].
  - f_equal. apply Hall. left.
  - exfalso. apply NoDup_cons in Hnd as [Hnotin _]. apply Hnotin.
    rewrite (Hall a), (Hall b); [left| |]; set_solver.
Qed.

(** X6. When every hit that has content is attributed to the same file
    name, and there is such a hit, "sources" is the list of that one name,
    whatever the iteration order of sets and however many hits share it. *)
Theorem X6_one_file_one_source (w : World) (self : RAGService)
    (q : string) (v : embedding) (hits : list Hit) (answer f : string) :
  get_embedding w q = inr v ->
  search_vectors w v (max_results self) (similarity_threshold self)
    = inr hits ->
  hits <> [] ->
  generate_content w (rag_prompt (context_of hits) q) = inr answer ->
  (forall i hit, hits !! i = Some hit -> has_content hit ->
                 filename_of i hit = f) ->
  Exists has_content hits ->
  exists r st,
    query_rag w self q Run.init = (inr r, st)
    /\ r !! "sources" = Some (VStrList [f]).
Proof.
  intros Hv Hs Hne Ha Hsame Hsome. eexists _, _.
  split; [apply (query_rag_answered _ _ _ _ _ _ Hv Hs Hne Ha)|].
  unfold rag_response.
  rewrite (NoDup_all_same
             (Py.list_set (set_order w) (build_context 0 hits [] []).2) f);
    [reflexivity|apply Py.list_set_NoDup| |].
  - intros x Hx. apply Py.list_set_elem in Hx.
    rewrite build_context_sources in Hx.
    apply elem_of_omap_imap in Hx as (i & hit & Hi & Hx).
    apply attributed_source_Some in Hx as [Hc <-]. apply (Hsame _ _ Hi Hc).
  - apply Exists_exists in Hsome as (hit & Hin & Hc).
    apply list_elem_of_lookup in Hin as [i Hi].
    intros Hnil.
    assert (Hf : filename_of i hit
                 ∈ Py.list_set (set_order w) (build_context 0 hits [] []).2).
    { apply Py.list_set_elem. rewrite build_context_sources.
      apply elem_of_omap_imap. exists i, hit. split; [exact Hi|].
      apply attributed_source_Some. split; [exact Hc|reflexivity]. }
    rewrite Hnil in Hf. by apply elem_of_nil in Hf.
Qed.

(** X6 at three hits: the chunk of chapter 1 twice, around a hit without
    content. *)
Lemma X6_chapter_one_witness :
  search_vectors
    (demo_world (inr [hit_ch1; hit_no_content; hit_ch1]) (inr "A robot."))
    [0.25%float; 0.5%float] 5 0.7%float
  = inr [hit_ch1; hit_no_content; hit_ch1]
  /\ Exists has_content [hit_ch1; hit_no_content; hit_ch1]
  /\ exists r st,
       query_rag
         (demo_world (inr [hit_ch1; hit_no_content; hit_ch1]) (inr "A robot."))
         default_service "What is a humanoid robot?" Run.init = (inr r, st)
       /\ r !! "sources" = Some (VStrList ["ch1.pdf"]).
Proof.
  assert (Hsome : Exists has_content [hit_ch1; hit_no_content; hit_ch1]).
  { left. eexists. reflexivity. }
  split; [reflexivity|]. split; [exact Hsome|].
  apply (X6_one_file_one_source
           (demo_world (inr [hit_ch1; hit_no_content; hit_ch1])
              (inr "A robot."))
           default_service "What is a humanoid robot?"
           [0.25%float; 0.5%float] [hit_ch1; hit_no_content; hit_ch1]
           "A robot." "ch1.pdf");
    [reflexivity|reflexivity|discriminate|reflexivity| |exact Hsome].
  intros i hit Hi Hc.
  destruct i as [|[|[|i]]]; cbn in Hi; try discriminate Hi;
    injection Hi as <-; [reflexivity| |reflexivity].
  destruct Hc as [c Hc]. discriminate Hc.
Defined.

(** ** Synthetic file names *)

Lemma to_uint_not_Nil (n : nat) : Nat.to_uint n <> Decimal.Nil.
Proof.
  intros Hnil. pose proof (DecimalNat.Unsigned.of_to n) as Hn.
  rewrite Hnil in Hn. cbn in Hn. subst n. discriminate Hnil.
Qed.

Lemma str_of_nat_inj (i j : nat) : Py.str_of_nat i = Py.str_of_nat j -> i = j.
Proof.
  unfold Py.str_of_nat. intros Heq.
  apply DecimalNat.Unsigned.to_uint_inj.
  pose proof (NilZero.usu _ (to_uint_not_Nil i)) as Hi.
  pose proof (NilZero.usu _ (to_uint_not_Nil j)) as Hj.
  rewrite Heq in Hi. congruence.
Qed.

Lemma chunk_name_inj (i j : nat) :
  "chunk_" +:+ Py.str_of_nat i = "chunk_" +:+ Py.str_of_nat j -> i = j.
Proof. intros Heq. apply str_of_nat_inj. by simplify_eq/=. Qed.

(** X7. The fallback names of two hits without a file name differ whenever
    their positions differ. *)
Theorem X7_fallback_names_differ (i j : nat) (hit hit' : Hit) :
  payload hit !! "filename" = None ->
  payload hit' !! "filename" = None ->
  i <> j ->
  filename_of i hit <> filename_of j hit'.
Proof.
  intros Hf Hf' Hij Heq. unfold filename_of in Heq.
  rewrite Hf, Hf' in Heq. cbn [default] in Heq.
  apply Hij, chunk_name_inj, Heq.
Qed.

(** X7 at positions 0 and 12 of the same unnamed hit. *)
Lemma X7_fallback_names_witness :
  payload hit_unnamed !! "filename" = None
  /\ filename_of 0 hit_unnamed = "chunk_0"
  /\ filename_of 12 hit_unnamed = "chunk_12"
  /\ filename_of 0 hit_unnamed <> filename_of 12 hit_unnamed.
Proof.
  split; [reflexivity|]. split; [reflexivity|]. split; [reflexivity|].
  apply (X7_fallback_names_differ 0 12 hit_unnamed hit_unnamed);
    [reflexivity|reflexivity|discriminate].
Defined.

Lemma omap_id_Some {A} (l : list A) : omap id (Some <$> l) = l.
Proof. induction l as [|a l IH]; [reflexivity|]. cbn. by rewrite IH. Qed.

Lemma attributed_sources_unnamed (hits : list Hit) :
  Forall has_content hits ->
  Forall (fun hit => payload hit !! "filename" = None) hits ->
  attributed_sources hits
  = (fun i => "chunk_" +:+ Py.str_of_nat i) <$> seq 0 (length hits).
Proof.
  intros Hc Hf. unfold attributed_sources.
  rewrite (imap_ext attributed_source
             (fun i _ => Some ("chunk_" +:+ Py.str_of_nat i)) hits).
  - rewrite (imap_seq_0 hits (fun i => Some ("chunk_" +:+ Py.str_of_nat i))).
    rewrite (list_fmap_compose (fun i => "chunk_" +:+ Py.str_of_nat i) Some).
    apply omap_id_Some.
  - intros i hit Hi. apply list_elem_of_lookup_2 in Hi.
    rewrite Forall_forall in Hc, Hf.
    destruct (Hc hit Hi) as [c Hcontent].
    unfold attributed_source, filename_of. rewrite Hcontent, (Hf hit Hi).
    reflexivity.
Qed.

(** X8. When every returned hit has content and none has a file name, no
    two of them are merged by the de-duplication: "sources" has as many
    entries as there were hits, one "chunk_<index>" per position. *)
Theorem X8_unnamed_hits_all_listed (w : World) (self : RAGService)
    (q : string) (v : embedding) (hits : list Hit) (answer : string) :
  get_embedding w q = inr v ->
  search_vectors w v (max_results self) (similarity_threshold self)
    = inr hits ->
  hits <> [] ->
  generate_content w (rag_prompt (context_of hits) q) = inr answer ->
  Forall has_content hits ->
  Forall (fun hit => payload hit !! "filename" = None) hits ->
  exists r st srcs,
    query_rag w self q Run.init = (inr r, st)
    /\ r !! "sources" = Some (VStrList srcs)
    /\ length srcs = length hits
    /\ forall i, (i < length hits)%nat ->
                 "chunk_" +:+ Py.str_of_nat i ∈ srcs.
Proof.
  intros Hv Hs Hne Ha Hc Hf. eexists _, _, _.
  split; [apply (query_rag_answered _ _ _ _ _ _ Hv Hs Hne Ha)|].
  split; [reflexivity|].
  rewrite build_context_sources, (attributed_sources_unnamed _ Hc Hf).
  set (names := (fun i => "chunk_" +:+ Py.str_of_nat i) <$> seq 0 (length hits)).
  assert (Hnd : NoDup names).
  { apply NoDup_fmap_2_strong; [|apply NoDup_seq].
    intros i j _ _. apply chunk_name_inj. }
  split.
  - transitivity (length names); [|unfold names; by rewrite length_fmap, length_seq].
    apply Permutation_length, NoDup_Permutation;
      [apply Py.list_set_NoDup|exact Hnd|apply Py.list_set_elem].
  - intros i Hi. apply Py.list_set_elem. unfold names.
    apply list_elem_of_fmap. exists i. split; [reflexivity|].
    apply elem_of_seq. lia.
Qed.

(** X8 at two hits that are the same unnamed chunk. *)
Lemma X8_unnamed_twice_witness :
  search_vectors
    (demo_world (inr [hit_unnamed; hit_unnamed]) (inr "Motors."))
    [0.25%float; 0.5%float] 5 0.7%float
  = inr [hit_unnamed; hit_unnamed]
  /\ Forall has_content [hit_unnamed; hit_unnamed]
  /\ Forall (fun hit => payload hit !! "filename" = None)
       [hit_unnamed; hit_unnamed]
  /\ exists r st srcs,
       query_rag (demo_world (inr [hit_unnamed; hit_unnamed]) (inr "Motors."))
         default_service "What moves the joints?" Run.init = (inr r, st)
       /\ r !! "sources" = Some (VStrList srcs)
       /\ length srcs = 2%nat
       /\ "chunk_0" ∈ srcs /\ "chunk_1" ∈ srcs.
Proof.
  assert (Hc : Forall has_content [hit_unnamed; hit_unnamed])
    by (repeat constructor; eexists; reflexivity).
  assert (Hf : Forall (fun hit => payload hit !! "filename" = None)
                 [hit_unnamed; hit_unnamed])
    by (repeat constructor).
  split; [reflexivity|]. split; [exact Hc|]. split; [exact Hf|].
  destruct (X8_unnamed_hits_all_listed
              (demo_world (inr [hit_unnamed; hit_unnamed]) (inr "Motors."))
              default_service "What moves the joints?"
              [0.25%float; 0.5%float] [hit_unnamed; hit_unnamed] "Motors."
              eq_refl eq_refl ltac:(discriminate) eq_refl Hc Hf)
    as (r & st & srcs & Hrun & Hsrcs & Hlen & Hall).
  exists r, st, srcs. split; [exact Hrun|]. split; [exact Hsrcs|].
  split; [exact Hlen|].
  split; [apply (Hall 0%nat)|apply (Hall 1%nat)]; cbn; lia.
Defined.

(** ** The prompts and the context string *)

Lemma length_append (a b : string) :
  String.length (a +:+ b) = (String.length a + String.length b)%nat.
Proof.
  induction a as [|c a IH]; [reflexivity|].
  change (S (String.length (a +:+ b))
          = S (String.length a + String.length b)).
  f_equal. exact IH.
Qed.

(** X9. The full-corpus prompt is a fixed template around its two inputs:
    a fixed head, the context verbatim, a blank line and "STUDENT
    QUESTION: ", the question verbatim, a fixed tail; its length is the
    lengths of context and question plus 492 characters. *)
Theorem X9_rag_prompt_is_a_template :
  exists head tail,
    forall context q,
      rag_prompt context q
      = head +:+ context +:+ Py.nl +:+ Py.nl +:+ "STUDENT QUESTION: "
          +:+ q +:+ tail
      /\ String.length (rag_prompt context q)
         = (String.length context + String.length q + 492)%nat.
Proof.
  exists ("You are a knowledgeable teaching assistant for the " +:+ Py.dq
            +:+ "Physical AI & Humanoid Robotics" +:+ Py.dq +:+ " textbook."
            +:+ Py.nl +:+ Py.nl +:+ "RELEVANT TEXTBOOK EXCERPTS:" +:+ Py.nl).
  eexists. intros context q.
  split.
  - unfold rag_prompt. cbn. reflexivity.
  - unfold rag_prompt. rewrite !length_append. cbn. lia.
Qed.

(** X10. The selected-text prompt is a fixed template around its two
    inputs: a fixed head, the selected text verbatim, a blank line and
    "QUESTION: ", the question verbatim, a fixed tail; its length is the
    lengths of selected text and question plus 334 characters. *)
Theorem X10_selected_text_prompt_is_a_template :
  exists head tail,
    forall selected_text q,
      selected_text_prompt selected_text q
      = head +:+ selected_text +:+ Py.nl +:+ Py.nl +:+ "QUESTION: "
          +:+ q +:+ tail
      /\ String.length (selected_text_prompt selected_text q)
         = (String.length selected_text + String.length q + 334)%nat.
Proof.
  exists ("You are a helpful assistant. Answer based STRICTLY on the following selected text:"
            +:+ Py.nl +:+ Py.nl +:+ "SELECTED TEXT:" +:+ Py.nl).
  eexists. intros selected_text q. split.
  - unfold selected_text_prompt. cbn. reflexivity.
  - unfold selected_text_prompt. rewrite !length_append. cbn. lia.
Qed.



(** * Properties of the request gateway *)








(** X15. The guarded imports bind both services alike: after the module
    has loaded, [ingestion_service] is a mock exactly when [rag_service]
    is one, and both are the imported ones only if both imports
    succeeded. An [ImportError] of the second import thus also replaces
    the ingestion service that had been imported. *)
Theorem X15_services_are_mocked_together {I R : Type}
    (ingestion : Api.import_outcome I) (rag : Api.import_outcome R)
    (ingestion_service : Api.binding I) (rag_service : Api.binding R) :
  Api.load_services ingestion rag = inr (ingestion_service, rag_service) ->
  Api.is_mock ingestion_service = Api.is_mock rag_service
  /\ (Api.is_mock rag_service = false <->
      exists i r, ingestion = Api.Imported i /\ rag = Api.Imported r
                  /\ ingestion_service = Api.Real i
                  /\ rag_service = Api.Real r)
  /\ (Api.is_mock rag_service = true <->
      (exists msg, ingestion = Api.RaisesImportError msg)
      \/ (exists i msg, ingestion = Api.Imported i
                        /\ rag = Api.RaisesImportError msg)).
Proof.
  intros Hload. unfold Api.load_services in Hload.
  destruct ingestion as [i|msg|msg]; [|injection Hload as <- <-|discriminate].
  - destruct rag as [r|msg|msg]; [| |discriminate]; injection Hload as <- <-.
    + split; [reflexivity|]. split; split.
      * intros _. exists i, r. repeat split.
      * reflexivity.
      * discriminate.
      * intros [(msg & Hm)|(i' & msg & _ & Hm)]; discriminate Hm.
    + split; [reflexivity|]. split; split.
      * discriminate.
      * intros (i' & r & _ & Hr & _). discriminate Hr.
      * intros _. right. exists i, msg. split; reflexivity.
      * reflexivity.
  - split; [reflexivity|]. split; split.
    + discriminate.
    + intros (i & r & Hi & _). discriminate Hi.
    + intros _. left. exists msg. reflexivity.
    + reflexivity.
Qed.

(** X15 when the ingestion service imports and the RAG service does not. *)
Lemma X15_second_import_fails_witness :
  Api.load_services (Api.Imported tt)
    (Api.RaisesImportError "No module named qdrant" : Api.import_outcome RAGService)
  = inr (Api.Mock, Api.Mock)
  /\ Api.is_mock (Api.Mock : Api.binding unit)
     = Api.is_mock (Api.Mock : Api.binding RAGService).
Proof.
  split; [reflexivity|].
  exact (proj1 (X15_services_are_mocked_together (Api.Imported tt)
                  (Api.RaisesImportError "No module named qdrant")
                  Api.Mock Api.Mock eq_refl)).
Defined.

(** X16. If one of the two imports raised [ImportError], every request to
    either query endpoint is answered with "Mock answer": no provider is
    called, the clock is not read, and the body has no other entry, so
    the query is not echoed. *)
Theorem X16_import_error_serves_mock_answers {I : Type}
    (ingestion : Api.import_outcome I)
    (rag : Api.import_outcome RAGService)
    (ingestion_service : Api.binding I)
    (rag_service : Api.binding RAGService) (w : World) :
  Api.load_services ingestion rag = inr (ingestion_service, rag_service) ->
  (exists msg, ingestion = Api.RaisesImportError msg
               \/ rag = Api.RaisesImportError msg) ->
  (forall request,
     Api.query_rag_system w rag_service request Run.init
     = (inr (<["answer" := VStr "Mock answer"]> ∅), Run.init))
  /\ (forall request,
        Api.query_with_selected_text w rag_service request Run.init
        = (inr (<["answer" := VStr "Mock answer"]> ∅), Run.init)).
Proof.
  intros Hload (msg & Hraised).
  assert (Hmock : rag_service = Api.Mock).
  { unfold Api.load_services in Hload.
    destruct ingestion as [i|m|m]; [|by injection Hload as <- <-|discriminate].
    destruct rag as [r|m|m]; [|by injection Hload as <- <-|discriminate].
    destruct Hraised as [Hr|Hr]; discriminate Hr. }
  subst rag_service. split; intros request; reflexivity.
Qed.

(** X16 when the first import raises. *)
Lemma X16_first_import_fails_witness :
  Api.load_services
    (Api.RaisesImportError "No module named services" : Api.import_outcome unit)
    (Api.Imported default_service)
  = inr (Api.Mock, Api.Mock)
  /\ Api.query_rag_system world_book Api.Mock
       {| Api.query := "What is a humanoid robot?" |} Run.init
     = (inr (<["answer" := VStr "Mock answer"]> ∅), Run.init).
Proof.
  split; [reflexivity|].
  assert (Hraised : exists msg,
            (Api.RaisesImportError "No module named services"
               : Api.import_outcome unit) = Api.RaisesImportError msg
            \/ Api.Imported default_service = Api.RaisesImportError msg).
  { exists "No module named services". left. reflexivity. }
  exact (proj1 (X16_import_error_serves_mock_answers
                  (Api.RaisesImportError "No module named services")
                  (Api.Imported default_service) Api.Mock Api.Mock world_book
                  eq_refl Hraised)
           {| Api.query := "What is a humanoid robot?" |}).
Defined.

(** X17. [POST /ingest] never lets an exception of the ingestion through.
    Its body always has a "message"; it has an "error", the exception's
    text, and no "data" exactly when the ingestion raised, and a "data",
    the ingestion's result untouched, and no "error" exactly when it
    returned. *)
Theorem X17_ingest_endpoint_reports_either_data_or_error {R : Type}
    (ingest_book_content : exn + R) :
  exists body,
    Api.ingest_content ingest_book_content = inr body
    /\ (exists m, body !! "message" = Some (Api.IStr m))
    /\ (forall e, ingest_book_content = inl e <->
                  body !! "error" = Some (Api.IStr e))
    /\ (forall result, ingest_book_content = inr result <->
                       body !! "data" = Some (Api.IData result))
    /\ (is_Some (body !! "error") <-> body !! "data" = None).
Proof.
  destruct ingest_book_content as [e|result]; eexists;
    (split; [reflexivity|]); (split; [eexists; reflexivity|]).
  - split; [|split].
    + intros e'. split; [intros [= <-]; reflexivity|].
      intros Hb. vm_compute in Hb. congruence.
    + intros result. split; [discriminate|].
      intros Hb. vm_compute in Hb. discriminate Hb.
    + split; [reflexivity|]. intros _. eexists. reflexivity.
  - split; [|split].
    + intros e. split; [discriminate|].
      intros Hb. vm_compute in Hb. discriminate Hb.
    + intros result'. split; [intros [= <-]; reflexivity|].
      intros Hb. vm_compute in Hb. congruence.
    + split; [intros [x Hx]; vm_compute in Hx; discriminate Hx|].
      intros Hb. vm_compute in Hb. discriminate Hb.
Qed.

(** * Properties of the construction of the service *)

Section Construction.

Variables (py_float : string -> exn + float) (py_int : string -> exn + Z).
Variable environ : gmap string string.

(** X18. Constructing the service raises only because of a variable that
    is set: either SIMILARITY_THRESHOLD is set to a string [float]
    rejects, or the threshold is fine and MAX_RESULTS is set to a string
    [int] rejects. The threshold is converted first, so when both are
    rejected the error is the threshold's. *)
Theorem X18_construction_fails_only_on_a_set_variable (e : exn) :
  RAGService_init py_float py_int environ = inl e <->
  (exists s, environ !! "SIMILARITY_THRESHOLD" = Some s /\ py_float s = inl e)
  \/ ((environ !! "SIMILARITY_THRESHOLD" = None
       \/ exists s t, environ !! "SIMILARITY_THRESHOLD" = Some s
                      /\ py_float s = inr t)
      /\ exists s, environ !! "MAX_RESULTS" = Some s /\ py_int s = inl e).
Proof.
  unfold RAGService_init.
  destruct (environ !! "SIMILARITY_THRESHOLD") as [s|] eqn:Ht;
    [destruct (py_float s) as [et|t] eqn:Hpf|];
    (destruct (environ !! "MAX_RESULTS") as [s'|] eqn:Hm;
      [destruct (py_int s') as [em|m] eqn:Hpi|]); split;
    try discriminate; try (intros [= <-]); eauto 10;
    intros [(s0 & Hs0 & Hf)|([Hnone|(s0 & t0 & Hs0 & Hf)] & s1 & Hs1 & Hi)];
    congruence.
Qed.

(** X19. A variable that is not set takes its default, 0.7 for the
    threshold and 5 for the number of results, whatever the other one is
    set to; a variable that is set gives what its conversion returns. With
    neither set the service is the default one. *)
Theorem X19_unset_variables_take_their_defaults :
  (environ !! "SIMILARITY_THRESHOLD" = None ->
   environ !! "MAX_RESULTS" = None ->
   RAGService_init py_float py_int environ = inr default_service)
  /\ forall self,
       RAGService_init py_float py_int environ = inr self ->
       (environ !! "SIMILARITY_THRESHOLD" = None ->
        similarity_threshold self = 0.7%float)
       /\ (environ !! "MAX_RESULTS" = None -> max_results self = 5)
       /\ (forall s, environ !! "SIMILARITY_THRESHOLD" = Some s ->
                     py_float s = inr (similarity_threshold self))
       /\ (forall s, environ !! "MAX_RESULTS" = Some s ->
                     py_int s = inr (max_results self)).
Proof.
  unfold RAGService_init. split.
  - intros -> ->. reflexivity.
  - intros self.
    destruct (environ !! "SIMILARITY_THRESHOLD") as [s|] eqn:Ht;
      [destruct (py_float s) as [et|t] eqn:Hpf|];
      (destruct (environ !! "MAX_RESULTS") as [s'|] eqn:Hm;
        [destruct (py_int s') as [em|m] eqn:Hpi|]);
      try discriminate; intros [= <-]; cbn;
      repeat split; try discriminate; try reflexivity;
      intros s0 [= <-]; assumption.
Qed.

End Construction.
